(** * DNS manifest generation of the installer (pkg/asset/manifests/dns.go)

    A shallow embedding of the method [Generate] of [DNS]: the construction of the
    cluster DNS configuration (public and private zone references) by a
    dispatch on the platform name, the calls it makes to the cloud
    collaborators, the errors it hands back and the file list it leaves
    behind. *)

From stdpp Require Import base strings gmap list.

Local Open Scope string_scope.

(** ** Go library functions used by the source *)

(** [strings.TrimPrefix(s, prefix)]: [s] without the leading [prefix], and
    [s] itself when it does not start with [prefix]. *)
Fixpoint strip_prefix (prefix s : string) : option string :=
  match prefix with
  | EmptyString => Some s
  | String c prefix' =>
      match s with
      | EmptyString => None
      | String d s' => if Ascii.eqb c d then strip_prefix prefix' s' else None
      end
  end.

Definition strings_TrimPrefix (s prefix : string) : string :=
  match strip_prefix prefix s with
  | Some rest => rest
  | None => s
  end.

(** [strings.Contains(s, substr)]; used to say what a message mentions. *)
Fixpoint strings_Contains (s substr : string) : bool :=
  match strip_prefix substr s with
  | Some _ => true
  | None =>
      match s with
      | EmptyString => false
      | String _ s' => strings_Contains s' substr
      end
  end.

(** ** Errors (github.com/pkg/errors)

    [Foreign e] is an error value handed back by a collaborator (a cloud
    SDK, the YAML encoder); [errors.New], [errors.Wrap] and [errors.Wrapf]
    allocate a new error value inside [Generate].  [Wrapf] keeps its format
    string and arguments as the call site gives them. *)
Record foreign_error := ForeignError { foreign_text : string }.

Inductive error : Type :=
| Foreign (e : foreign_error)
| errors_New (message : string)
| errors_Wrap (cause : error) (message : string)
| errors_Wrapf (cause : error) (format : string) (args : list string).

(** The innermost error of a chain of wraps ([errors.Cause]). *)
Fixpoint errors_Cause (e : error) : error :=
  match e with
  | errors_Wrap c _ | errors_Wrapf c _ _ => errors_Cause c
  | _ => e
  end.

(** Whether the context added by the outermost wrap mentions [s]: in the
    message of a [Wrap], in the format string or an argument of a [Wrapf]. *)
Definition context_mentions (s : string) (e : error) : bool :=
  match e with
  | errors_Wrap _ m => strings_Contains m s
  | errors_Wrapf _ f args =>
      strings_Contains f s || existsb (fun a => strings_Contains a s) args
  | _ => false
  end.

(** ** Platform packages (pkg/types/...)

    The platform names are the [Name] constants of the platform packages,
    which are declared outside the two source files; a Go switch over
    constants only compiles when they are pairwise distinct. *)
Module alibabacloudtypes.
Definition Name := "alibabacloud".
End alibabacloudtypes.

Module baremetaltypes.
Definition Name := "baremetal".
End baremetaltypes.

Module ibmcloudtypes.
Definition Name := "ibmcloud".
End ibmcloudtypes.

Module libvirttypes.
Definition Name := "libvirt".
End libvirttypes.

Module nonetypes.
Definition Name := "none".
End nonetypes.

Module nutanixtypes.
Definition Name := "nutanix".
End nutanixtypes.

Module openstacktypes.
Definition Name := "openstack".
End openstacktypes.

Module ovirttypes.
Definition Name := "ovirt".
End ovirttypes.

Module powervstypes.
Definition Name := "powervs".
End powervstypes.

Module vspheretypes.
Definition Name := "vsphere".
End vspheretypes.

Module awstypes.
Definition Name := "aws".
(** [HostedZone]: the operator's existing private hosted zone, empty when
    none is given. *)
Record Platform := { HostedZone : string }.
End awstypes.

Module azuretypes.
Definition Name := "azure".
Definition CloudEnvironment := string.
Definition StackCloud : CloudEnvironment := "AzureStackCloud".
(** [ClusterResourceGroupName] is a method of the platform taking the
    infra ID; its body is outside the source files. *)
Record Platform := {
  BaseDomainResourceGroupName : string;
  ClusterResourceGroupName : string -> string
}.
End azuretypes.

Module gcptypes.
Definition Name := "gcp".
Record DNSZone := { ID : string; ProjectID : string }.
(** [PublicDNSZone] and [PrivateDNSZone] are pointers: [None] is nil. *)
Record Platform := {
  PlatformProjectID : string;
  PublicDNSZone : option DNSZone;
  PrivateDNSZone : option DNSZone
}.
End gcptypes.

Module types.
Definition PublishingStrategy := string.
Definition ExternalPublishingStrategy : PublishingStrategy := "External".
Definition InternalPublishingStrategy : PublishingStrategy := "Internal".

(** The install configuration as [Generate] reads it.  [PlatformName] is
    the result of [Platform.Name()] and [ClusterDomain] the result of the
    method [ClusterDomain()].  The per-platform sections are pointers in
    Go; [Platform.Name()] names a platform only when its section is set,
    so each branch of the switch finds its own section. *)
Record InstallConfig := {
  PlatformName : string;
  Publish : PublishingStrategy;
  BaseDomain : string;
  ClusterDomain : string;
  AWS : awstypes.Platform;
  Azure : azuretypes.Platform;
  GCP : gcptypes.Platform
}.
End types.

(** ** The output record (github.com/openshift/api/config/v1) *)
Module configv1.
(** A zone reference: [ID] (empty when unset) and [Tags] (the nil map is
    the empty map). *)
Record DNSZone := { ID : string; Tags : gmap string string }.

Record DNSSpec := {
  BaseDomain : string;
  PublicZone : option DNSZone;
  PrivateZone : option DNSZone
}.

Record DNS := {
  APIVersion : string;
  Kind : string;
  Name : string;
  Spec : DNSSpec
}.

Definition SchemeGroupVersion_String := "config.openshift.io/v1".
End configv1.

(** The two forms of a zone reference. *)
Definition byID (id : string) : configv1.DNSZone :=
  {| configv1.ID := id; configv1.Tags := ∅ |}.
Definition byTags (tags : gmap string string) : configv1.DNSZone :=
  {| configv1.ID := ""; configv1.Tags := tags |}.

Definition id_populated (z : configv1.DNSZone) : Prop := configv1.ID z ≠ "".
Definition tags_populated (z : configv1.DNSZone) : Prop := configv1.Tags z ≠ ∅.

(** The literal [&configv1.DNS{...}] of lines 76 to 88, with the two zone
    references as given. *)
Definition dns_config (baseDomain : string)
    (publicZone privateZone : option configv1.DNSZone) : configv1.DNS :=
  {| configv1.APIVersion := configv1.SchemeGroupVersion_String;
     configv1.Kind := "DNS";
     configv1.Name := "cluster";
     configv1.Spec :=
       {| configv1.BaseDomain := baseDomain;
          configv1.PublicZone := publicZone;
          configv1.PrivateZone := privateZone |} |}.

(** The assignments [config.Spec.PublicZone = &z] and
    [config.Spec.PrivateZone = &z]. *)
Definition set_PublicZone (z : configv1.DNSZone) (c : configv1.DNS) : configv1.DNS :=
  {| configv1.APIVersion := configv1.APIVersion c;
     configv1.Kind := configv1.Kind c;
     configv1.Name := configv1.Name c;
     configv1.Spec :=
       {| configv1.BaseDomain := configv1.BaseDomain (configv1.Spec c);
          configv1.PublicZone := Some z;
          configv1.PrivateZone := configv1.PrivateZone (configv1.Spec c) |} |}.

Definition set_PrivateZone (z : configv1.DNSZone) (c : configv1.DNS) : configv1.DNS :=
  {| configv1.APIVersion := configv1.APIVersion c;
     configv1.Kind := configv1.Kind c;
     configv1.Name := configv1.Name c;
     configv1.Spec :=
       {| configv1.BaseDomain := configv1.BaseDomain (configv1.Spec c);
          configv1.PublicZone := configv1.PublicZone (configv1.Spec c);
          configv1.PrivateZone := Some z |} |}.

(** ** Assets *)
Module asset.
Record File := { Filename : string; Data : string }.
End asset.

Module installconfig.
(** [installConfig.Azure]: the Azure metadata, of which [Generate] reads
    the cloud name. *)
Record AzureMetadata := { CloudName : azuretypes.CloudEnvironment }.
Record InstallConfig := { Config : types.InstallConfig; Azure : AzureMetadata }.
Record ClusterID := { InfraID : string }.
End installconfig.

(** [DNS]: the asset, with the files it has generated. *)
Record DNS := { FileList : list asset.File }.

Definition DNS_Name : string := "DNS Config".

(** [manifestDir] is declared elsewhere in package manifests; the file name
    is [filepath.Join(manifestDir, ...)]. *)
Definition manifestDir : string := "manifests".
Definition dnsCfgFilename : string := manifestDir +:+ "/" +:+ "cluster-dns-02-config.yml".

Definition combineGCPZoneInfo (project zoneName : string) : string :=
  "project/" +:+ project +:+ "/managedZones/" +:+ zoneName.

(** ** Collaborators

    What [Generate] calls outside this package.  Each answers as a Go
    function with an [error] result does: a value, or the collaborator's
    error. *)
Record Session := { session_handle : string }.
Record HostedZone := { Id : string }.
Record ManagedZone := { ZoneName : string }.

(** The value of [installConfig.Azure.DNSConfig()] with its two naming
    methods, whose bodies are outside the source files. *)
Record AzureDNSConfig := {
  GetDNSZoneID : string -> string -> string;
  GetPrivateDNSZoneID : string -> string -> string
}.

Record IBMCloudClient := {
  ibmcloud_GetDNSZoneIDByName :
    string -> types.PublishingStrategy -> foreign_error + string
}.

Record PowerVSClient := {
  powervs_GetDNSZoneIDByName : string -> foreign_error + string
}.

Record World := {
  AWS_Session : foreign_error + Session;
  icaws_GetPublicZone : Session -> string -> foreign_error + HostedZone;
  Azure_DNSConfig : foreign_error + AzureDNSConfig;
  icgcp_GetPublicZone : string -> string -> foreign_error + ManagedZone;
  icibmcloud_NewClient : foreign_error + IBMCloudClient;
  icpowervs_NewClient : foreign_error + PowerVSClient;
  yaml_Marshal : configv1.DNS -> foreign_error + string
}.

(** The calls to the cloud collaborators that have an error result, in
    the order they are issued.  The two naming methods of the Azure DNS
    configuration return a string and no error, and are not recorded. *)
Inductive Call : Type :=
| CallAWSSession
| CallAWSGetPublicZone (baseDomain : string)
| CallAzureDNSConfig
| CallGCPGetPublicZone (projectID baseDomain : string)
| CallIBMCloudNewClient
| CallIBMCloudGetDNSZoneIDByName (baseDomain : string) (publish : types.PublishingStrategy)
| CallPowerVSNewClient
| CallPowerVSGetDNSZoneIDByName (baseDomain : string).

(** ** A monad for calls that are recorded and may fail *)
Definition M (A : Type) : Type := list Call -> list Call * (error + A).

Definition ret {A} (a : A) : M A := fun tr => (tr, inr a).

Definition bind {A B} (m : M A) (k : A -> M B) : M B :=
  fun tr =>
    match m tr with
    | (tr', inl e) => (tr', inl e)
    | (tr', inr a) => k a tr'
    end.

Notation "'do' x <- m ; k" := (bind m (fun x => k))
  (at level 10, x name, m at level 100, k at level 200).

(** [v, err := f(...); if err != nil { return wrap(err) }]: the call is
    recorded, and its error leaves the function through [wrap]. *)
Definition attempt {A} (c : Call) (answer : foreign_error + A)
    (wrap : error -> error) : M A :=
  fun tr =>
    ((tr ++ [c])%list,
     match answer with
     | inl err => inl (wrap (Foreign err))
     | inr v => inr v
     end).

(** ** The platform switch of [Generate] (lines 76 to 217) *)
Section Generate.
Variable installConfig : installconfig.InstallConfig.
Variable clusterID : installconfig.ClusterID.
Variable w : World.

Local Abbreviation Config := (installconfig.Config installConfig).
Local Abbreviation InfraID := (installconfig.InfraID clusterID).

(** [installConfig.Config.Publish == types.ExternalPublishingStrategy] *)
Definition external : bool :=
  bool_decide (types.Publish Config = types.ExternalPublishingStrategy).

(** [case alibabacloudtypes.Name] *)
Definition Resolve_alibabacloud (config : configv1.DNS) : M configv1.DNS :=
  let config :=
    if external
    then set_PublicZone
           {| configv1.ID := types.BaseDomain Config;
              configv1.Tags := {[ "type" := "public" ]} |} config
    else config in
  ret (set_PrivateZone
         {| configv1.ID := types.ClusterDomain Config;
            configv1.Tags := {[ "type" := "private" ]} |} config).

(** [case awstypes.Name] *)
Definition Resolve_aws (config : configv1.DNS) : M configv1.DNS :=
  do config <-
    (if external
     then
       do sess <- attempt CallAWSSession (AWS_Session w)
                    (fun err => errors_Wrap err "failed to initialize session");
       do zone <- attempt (CallAWSGetPublicZone (types.BaseDomain Config))
                    (icaws_GetPublicZone w sess (types.BaseDomain Config))
                    (fun err => errors_Wrapf err "getting public zone for %q"
                                  [types.BaseDomain Config]);
       ret (set_PublicZone
              {| configv1.ID := strings_TrimPrefix (Id zone) "/hostedzone/";
                 configv1.Tags := ∅ |} config)
     else ret config);
  let hostedZone := awstypes.HostedZone (types.AWS Config) in
  if decide (hostedZone = "")
  then ret (set_PrivateZone
              {| configv1.ID := "";
                 configv1.Tags :=
                   {[ "kubernetes.io/cluster/" +:+ InfraID := "owned";
                      "Name" := InfraID +:+ "-int" ]} |} config)
  else ret (set_PrivateZone
              {| configv1.ID := hostedZone; configv1.Tags := ∅ |} config).

(** [case azuretypes.Name] *)
Definition Resolve_azure (config : configv1.DNS) : M configv1.DNS :=
  do dnsConfig <- attempt CallAzureDNSConfig (Azure_DNSConfig w) (fun err => err);
  let config :=
    if external
    then set_PublicZone
           {| configv1.ID :=
                GetDNSZoneID dnsConfig
                  (azuretypes.BaseDomainResourceGroupName (types.Azure Config))
                  (types.BaseDomain Config);
              configv1.Tags := ∅ |} config
    else config in
  let config :=
    if decide (installconfig.CloudName (installconfig.Azure installConfig)
               ≠ azuretypes.StackCloud)
    then set_PrivateZone
           {| configv1.ID :=
                GetPrivateDNSZoneID dnsConfig
                  (azuretypes.ClusterResourceGroupName (types.Azure Config) InfraID)
                  (types.ClusterDomain Config);
              configv1.Tags := ∅ |} config
    else config in
  ret config.

(** [case gcptypes.Name]: the public zone, then the private zone. *)
Definition Resolve_gcp (config : configv1.DNS) : M configv1.DNS :=
  let gcp := types.GCP Config in
  let search :=
    (* Search the project for a zone with the specified base domain. *)
    do zone <- attempt
                 (CallGCPGetPublicZone (gcptypes.PlatformProjectID gcp)
                    (types.BaseDomain Config))
                 (icgcp_GetPublicZone w (gcptypes.PlatformProjectID gcp)
                    (types.BaseDomain Config))
                 (fun err => errors_Wrapf err "failed to get public zone for %q"
                               [types.BaseDomain Config]);
    ret (set_PublicZone (byID (ZoneName zone)) config) in
  do config <-
    (if negb external
     then (* Do not use a public zone when not publishing externally. *)
       ret config
     else
       match gcptypes.PublicDNSZone gcp with
       | Some public =>
           if decide (gcptypes.ID public ≠ "")
           then (* Use the provided zone if specified. *)
             let zoneID :=
               if decide (gcptypes.ProjectID public ≠ ""
                          ∧ gcptypes.PlatformProjectID gcp ≠ gcptypes.ProjectID public)
               then combineGCPZoneInfo (gcptypes.ProjectID public) (gcptypes.ID public)
               else gcptypes.ID public in
             ret (set_PublicZone (byID zoneID) config)
           else search
       | None => search
       end);
  let installer_created :=
    (* Use the installer created private zone. *)
    ret (set_PrivateZone (byID (InfraID +:+ "-private-zone")) config) in
  match gcptypes.PrivateDNSZone gcp with
  | Some private =>
      if decide (gcptypes.ID private ≠ "")
      then (* Use the provided zone if specified. *)
        let zoneID :=
          if decide (gcptypes.ProjectID private ≠ ""
                     ∧ gcptypes.PlatformProjectID gcp ≠ gcptypes.ProjectID private)
          then combineGCPZoneInfo (gcptypes.ProjectID private) (gcptypes.ID private)
          else gcptypes.ID private in
        (* line 170 assigns [config.Spec.PublicZone] *)
        ret (set_PublicZone (byID zoneID) config)
      else installer_created
  | None => installer_created
  end.

(** [case ibmcloudtypes.Name] *)
Definition Resolve_ibmcloud (config : configv1.DNS) : M configv1.DNS :=
  do client <- attempt CallIBMCloudNewClient (icibmcloud_NewClient w)
                 (fun err => errors_Wrap err "failed to get IBM Cloud client");
  do zoneID <- attempt
                 (CallIBMCloudGetDNSZoneIDByName (types.BaseDomain Config)
                    (types.Publish Config))
                 (ibmcloud_GetDNSZoneIDByName client (types.BaseDomain Config)
                    (types.Publish Config))
                 (fun err => errors_Wrap err "failed to get DNS zone ID");
  let config := if external then set_PublicZone (byID zoneID) config else config in
  ret (set_PrivateZone (byID zoneID) config).

(** [case powervstypes.Name] *)
Definition Resolve_powervs (config : configv1.DNS) : M configv1.DNS :=
  do client <- attempt CallPowerVSNewClient (icpowervs_NewClient w)
                 (fun err => errors_Wrap err "failed to get IBM PowerVS client");
  do zoneID <- attempt
                 (CallPowerVSGetDNSZoneIDByName (types.BaseDomain Config))
                 (powervs_GetDNSZoneIDByName client (types.BaseDomain Config))
                 (fun err => errors_Wrap err "failed to get DNS zone ID");
  let config := if external then set_PublicZone (byID zoneID) config else config in
  ret (set_PrivateZone (byID zoneID) config).

(** The platforms of the empty case at line 214: DNS is managed elsewhere. *)
Definition no_dns_platforms : list string :=
  [ libvirttypes.Name; openstacktypes.Name; baremetaltypes.Name; nonetypes.Name;
    vspheretypes.Name; ovirttypes.Name; nutanixtypes.Name ].

(** Lines 76 to 217: the initial [config] and the switch over
    [installConfig.Config.Platform.Name()].  It ends with the filled
    [config], or with the error [Generate] returns. *)
Definition Resolve : M configv1.DNS :=
  let config := dns_config (types.ClusterDomain Config) None None in
  let name := types.PlatformName Config in
  if decide (name = alibabacloudtypes.Name) then Resolve_alibabacloud config
  else if decide (name = awstypes.Name) then Resolve_aws config
  else if decide (name = azuretypes.Name) then Resolve_azure config
  else if decide (name = gcptypes.Name) then Resolve_gcp config
  else if decide (name = ibmcloudtypes.Name) then Resolve_ibmcloud config
  else if decide (name = powervstypes.Name) then Resolve_powervs config
  else if decide (name ∈ no_dns_platforms) then ret config
  else fun tr => (tr, inl (errors_New "invalid Platform")).

(** [Generate]: the switch, then [yaml.Marshal(config)] and the
    assignment of [d.FileList] (lines 219 to 231).  The result is the
    calls issued, the asset afterwards and the returned error ([None] is
    nil). *)
Definition Generate (d : DNS) : list Call * DNS * option error :=
  match Resolve [] with
  | (tr, inl err) => (tr, d, Some err)
  | (tr, inr config) =>
      match yaml_Marshal w config with
      | inl err =>
          (tr, d,
           Some (errors_Wrapf (Foreign err)
                   "failed to create %s manifests from InstallConfig" [DNS_Name]))
      | inr configData =>
          (tr,
           {| FileList :=
                [ {| asset.Filename := dnsCfgFilename; asset.Data := configData |} ] |},
           None)
      end
  end.
End Generate.

(** The platforms the switch knows. *)
Definition supported_platforms : list string :=
  [ alibabacloudtypes.Name; awstypes.Name; azuretypes.Name; gcptypes.Name;
    ibmcloudtypes.Name; powervstypes.Name ] ++ no_dns_platforms.

(** The zone references of a configuration. *)
Definition zones (c : configv1.DNS) : list configv1.DNSZone :=
  match configv1.PublicZone (configv1.Spec c) with Some z => [z] | None => [] end
  ++ match configv1.PrivateZone (configv1.Spec c) with Some z => [z] | None => [] end.

(** ** The rest of the DNS asset *)

(** The calls that look a zone up by its domain; the others build a
    session or a client. *)
Definition is_lookup (c : Call) : bool :=
  match c with
  | CallAWSGetPublicZone _ | CallGCPGetPublicZone _ _
  | CallIBMCloudGetDNSZoneIDByName _ _ | CallPowerVSGetDNSZoneIDByName _ => true
  | _ => false
  end.

(** [asset.FileFetcher], of which the assets use [FetchByName]. *)
Record FileFetcher := {
  FetchByName : string -> foreign_error + asset.File
}.

(** [Files] of [DNS]: the files generated by the asset. *)
Definition DNS_Files (d : DNS) : list asset.File := FileList d.

(** [Load] of [DNS]: nothing is read back; the result is [(false, nil)]. *)
Definition DNS_Load (d : DNS) (f : FileFetcher) : DNS * (bool * option error) :=
  (d, (false, None)).

(** ** The agent pull secret (second file of src/pkg/asset/manifests/dns.go) *)

(** [corev1.Secret], with the fields the asset writes and reads. *)
Module corev1.
Record Secret := {
  APIVersion : string;
  Kind : string;
  Name : string;
  Namespace : string;
  StringData : gmap string string
}.
End corev1.

(** [k8s.io/apimachinery/pkg/util/validation/field]: the asset only builds
    errors of type Required, on a path of one element. *)
Module field.
Inductive ErrorType : Type := ErrorTypeRequired.

Record Error := { Type_ : ErrorType; Field : string; Detail : string }.

Definition NewPath (name : string) : string := name.

Definition Required (path detail : string) : Error :=
  {| Type_ := ErrorTypeRequired; Field := path; Detail := detail |}.
End field.

(** Package agent: [OptionalInstallConfig], whose [Config] is a pointer
    ([None] is nil) to an install configuration, of which the asset reads
    the pull secret.  [PullSecretName] and [ObjectMetaNamespace] are the
    results of [getPullSecretName(installConfig)] and
    [getObjectMetaNamespace(installConfig)], two functions of package
    manifests outside the source files. *)
Module agent.
Record InstallConfig := { PullSecret : string }.

Record OptionalInstallConfig := {
  Config : option InstallConfig;
  PullSecretName : string;
  ObjectMetaNamespace : string
}.
End agent.

Module agentmanifests.

(** Errors of this file: those of pkg/errors as before, and the aggregate
    that [ErrorList.ToAggregate] builds from a list of field errors, kept as
    the list it is built from. *)
Inductive error : Type :=
| Foreign (e : foreign_error)
| Aggregate (errs : list field.Error)
| errors_New (message : string)
| errors_Wrap (cause : error) (message : string)
| errors_Wrapf (cause : error) (format : string) (args : list string).

(** [ErrorList.ToAggregate]: nil for a list without errors. *)
Definition ToAggregate (list : list field.Error) : option error :=
  match list with
  | [] => None
  | _ => Some (Aggregate list)
  end.

Definition pullSecretKey : string := ".dockerconfigjson".
Definition agentPullSecretName : string := "pull-secret".

(** [clusterManifestDir] is declared elsewhere in the package. *)
Definition clusterManifestDir : string := "cluster-manifests".

Definition agentPullSecretFilename : string :=
  clusterManifestDir +:+ "/" +:+ (agentPullSecretName +:+ ".yaml").

(** [AgentPullSecret]: both fields are pointers. *)
Record AgentPullSecret := {
  File : option asset.File;
  Config : option corev1.Secret
}.

(** The collaborators: the YAML encoder and decoder, and [os.IsNotExist]. *)
Record World := {
  yaml_Marshal : corev1.Secret -> foreign_error + string;
  yaml_UnmarshalStrict : string -> foreign_error + corev1.Secret;
  os_IsNotExist : foreign_error -> bool
}.

(** [validateSecretIsNotEmpty], on the secret [a.Config] points to. *)
Definition validateSecretIsNotEmpty (config : corev1.Secret) : list field.Error :=
  let allErrs : list field.Error := [] in
  let fieldPath := field.NewPath "StringData" in
  if decide (size (corev1.StringData config) = 0)
  then (allErrs ++ [field.Required fieldPath "the pull secret is empty"])%list
  else
    match corev1.StringData config !! pullSecretKey with
    | None =>
        (allErrs
         ++ [field.Required fieldPath
               "the pull secret key '.dockerconfigjson' is not defined"])%list
    | Some pullSecret =>
        if decide (pullSecret = "")
        then (allErrs
              ++ [field.Required fieldPath
                    "the pull secret does not contain any data"])%list
        else allErrs
    end.

(** [validatePullSecret], on the secret [a.Config] points to. *)
Definition validatePullSecret (config : corev1.Secret) : list field.Error :=
  let allErrs : list field.Error := [] in
  match validateSecretIsNotEmpty config with
  | [] => allErrs
  | err => (allErrs ++ err)%list
  end.

(** [finish]: the asset must have a configuration, and a valid one. *)
Definition finish (a : AgentPullSecret) : option error :=
  match Config a with
  | None => Some (errors_New "missing configuration or manifest file")
  | Some config =>
      match ToAggregate (validatePullSecret config) with
      | Some err => Some (errors_Wrapf err "invalid PullSecret configuration" [])
      | None => None
      end
  end.

(** The literal [&corev1.Secret{...}] of lines 295 to 307, for the install
    configuration [installConfig.Config] points to. *)
Definition secret_of (installConfig : agent.OptionalInstallConfig)
    (config : agent.InstallConfig) : corev1.Secret :=
  {| corev1.APIVersion := "v1";
     corev1.Kind := "Secret";
     corev1.Name := agent.PullSecretName installConfig;
     corev1.Namespace := agent.ObjectMetaNamespace installConfig;
     corev1.StringData := {[ pullSecretKey := agent.PullSecret config ]} |}.

(** [Generate]: the asset afterwards, and the returned error. *)
Definition Generate (w : World) (installConfig : agent.OptionalInstallConfig)
    (a : AgentPullSecret) : AgentPullSecret * option error :=
  match agent.Config installConfig with
  | Some config =>
      let secret := secret_of installConfig config in
      let a := {| File := File a; Config := Some secret |} in
      match yaml_Marshal w secret with
      | inl err => (a, Some (errors_Wrap (Foreign err) "failed to marshal agent secret"))
      | inr secretData =>
          let a :=
            {| File := Some {| asset.Filename := agentPullSecretFilename;
                               asset.Data := secretData |};
               Config := Config a |} in
          (a, finish a)
      end
  | None => (a, finish a)
  end.

(** [Files]: the file of the asset, if it has one. *)
Definition Files (a : AgentPullSecret) : list asset.File :=
  match File a with
  | Some file => [file]
  | None => []
  end.

(** [Load]: the asset afterwards, whether it was loaded, and the error. *)
Definition Load (w : World) (f : FileFetcher) (a : AgentPullSecret)
    : AgentPullSecret * (bool * option error) :=
  match FetchByName f agentPullSecretFilename with
  | inl err =>
      if os_IsNotExist w err
      then (a, (false, None))
      else (a, (false,
                Some (errors_Wrap (Foreign err)
                        ("failed to load " +:+ agentPullSecretFilename +:+ " file"))))
  | inr file =>
      match yaml_UnmarshalStrict w (asset.Data file) with
      | inl err =>
          (a, (false,
               Some (errors_Wrapf (Foreign err) "failed to unmarshal %s"
                       [agentPullSecretFilename])))
      | inr config =>
          let a := {| File := Some file; Config := Some config |} in
          match finish a with
          | Some err => (a, (false, Some err))
          | None => (a, (true, None))
          end
      end
  end.

End agentmanifests.

(** ** The node-zero client (src/pkg/agent/zeroclient.go) *)
Module nodezero.

(** How a call ends apart from its results: it returns, or it panics. *)
Inductive outcome (A : Type) : Type :=
| Returns (a : A)
| Panics (reason : string).
Arguments Returns {A} a.
Arguments Panics {A} reason.

Definition nil_dereference : string :=
  "invalid memory address or nil pointer dereference".
Definition index_out_of_range : string := "index out of range".

Record URL := { Scheme : string; Host : string; Path : string }.

(** [client.Config]: [URL] is a pointer, assigned through [*restConfig.URL];
    it is nil in the zero value [client.Config{}]. *)
Record Config := { ConfigURL : option URL }.

Definition UUID := string.

(** [models.Cluster] and [models.InfraEnv], of which the ID is read; the
    payloads are slices of pointers and the IDs are pointers. *)
Record Cluster := { ClusterID : option UUID }.
Record InfraEnv := { InfraEnvID : option UUID }.

(** The requests to the assisted service. *)
Inductive Request : Type :=
| GetClusters
| GetInfraEnvs (clusterID : option UUID).

(** [*client.AssistedInstall]: what the service answers to the two
    requests of [NewNodeZeroClient]. *)
Record AssistedInstall := {
  V2ListClusters : foreign_error + list (option Cluster);
  ListInfraEnvs : option UUID -> foreign_error + list (option InfraEnv)
}.

Record nodeZeroClient := {
  restClient : AssistedInstall;
  NodeZeroIP : string;
  clusterZeroID : option UUID;
  clusterZeroInfraEnv : option UUID
}.

(** [GetNodeZeroIP] is the result of [manifests.NewNMConfig().GetNodeZeroIP()],
    [DefaultBasePath] the constant of package client and [client_New] the
    constructor [client.New]. *)
Record World := {
  GetNodeZeroIP : string;
  DefaultBasePath : string;
  client_New : Config -> AssistedInstall
}.

(** [net.JoinHostPort]: a host with a colon is put in brackets. *)
Definition net_JoinHostPort (host port : string) : string :=
  if strings_Contains host ":"
  then "[" +:+ host +:+ "]:" +:+ port
  else host +:+ ":" +:+ port.

(** [NewNodeZeroClient]: the requests issued, and how the call ends: with
    a client or an error, or in a panic. *)
Definition NewNodeZeroClient (w : World)
    : list Request * outcome (foreign_error + nodeZeroClient) :=
  let nodeZeroIP := GetNodeZeroIP w in
  let restConfig := {| ConfigURL := None |} in
  let url :=
    {| Scheme := "http";
       Host := net_JoinHostPort nodeZeroIP "8090";
       Path := DefaultBasePath w |} in
  (* [*restConfig.URL = url.URL{...}] *)
  match ConfigURL restConfig with
  | None => ([], Panics nil_dereference)
  | Some _ =>
      let restConfig := {| ConfigURL := Some url |} in
      let restClient := client_New w restConfig in
      (* GET /v2/clusters *)
      match V2ListClusters restClient with
      | inl err => ([GetClusters], Returns (inl err))
      | inr [] => ([GetClusters], Panics index_out_of_range)
      | inr (None :: _) => ([GetClusters], Panics nil_dereference)
      | inr (Some cluster :: _) =>
          let clusterZeroID := ClusterID cluster in
          (* GET /v2/infraenvs *)
          match ListInfraEnvs restClient clusterZeroID with
          | inl err => ([GetClusters; GetInfraEnvs clusterZeroID], Returns (inl err))
          | inr [] =>
              ([GetClusters; GetInfraEnvs clusterZeroID], Panics index_out_of_range)
          | inr (None :: _) =>
              ([GetClusters; GetInfraEnvs clusterZeroID], Panics nil_dereference)
          | inr (Some infraenv :: _) =>
              ([GetClusters; GetInfraEnvs clusterZeroID],
               Returns (inr {| restClient := restClient;
                               NodeZeroIP := nodeZeroIP;
                               clusterZeroID := clusterZeroID;
                               clusterZeroInfraEnv := InfraEnvID infraenv |}))
          end
      end
  end.

End nodezero.

(** ** Vocabulary of the properties *)

(** Whether a zone override is absent: a nil pointer, or an empty ID. *)
Definition no_override (z : option gcptypes.DNSZone) : Prop :=
  match z with
  | Some o => gcptypes.ID o = ""
  | None => True
  end.

(** The zone ID an override stands for: composed with its project when the
    project is given and is not the install's own. *)
Definition override_zoneID (ownProject : string) (o : gcptypes.DNSZone) : string :=
  if decide (gcptypes.ProjectID o ≠ "" ∧ ownProject ≠ gcptypes.ProjectID o)
  then combineGCPZoneInfo (gcptypes.ProjectID o) (gcptypes.ID o)
  else gcptypes.ID o.

(** Exactly one of the two forms of a zone reference is populated. *)
Definition exactly_one_form (z : configv1.DNSZone) : Prop :=
  (id_populated z ∧ ¬ tags_populated z) ∨ (¬ id_populated z ∧ tags_populated z).

(** The IDs that the zone references take from the collaborators are not
    empty: on AWS the handle of the hosted zone after its /hostedzone/
    prefix is trimmed (so a handle that is the bare prefix is excluded,
    although it is not empty itself), on Azure the results of the two
    naming methods, on GCP the name of the zone found, on IBM Cloud and
    PowerVS the zone ID. *)
Definition collaborator_ids_nonempty (w : World) : Prop :=
  (∀ sess domain zone,
     icaws_GetPublicZone w sess domain = inr zone ->
     strings_TrimPrefix (Id zone) "/hostedzone/" ≠ "")
  ∧ (∀ dnsConfig rg zone,
       Azure_DNSConfig w = inr dnsConfig ->
       GetDNSZoneID dnsConfig rg zone ≠ "" ∧ GetPrivateDNSZoneID dnsConfig rg zone ≠ "")
  ∧ (∀ project domain zone,
       icgcp_GetPublicZone w project domain = inr zone -> ZoneName zone ≠ "")
  ∧ (∀ client domain publish zoneID,
       icibmcloud_NewClient w = inr client ->
       ibmcloud_GetDNSZoneIDByName client domain publish = inr zoneID -> zoneID ≠ "")
  ∧ (∀ client domain zoneID,
       icpowervs_NewClient w = inr client ->
       powervs_GetDNSZoneIDByName client domain = inr zoneID -> zoneID ≠ "").

(** A by-ID reference (its ID not empty when the IDs taken from the
    collaborators are not), or a by-tags reference with tags. *)
Definition single_form (w : World) (z : configv1.DNSZone) : Prop :=
  (∃ id, z = byID id ∧ (collaborator_ids_nonempty w -> id ≠ ""))
  ∨ (∃ tags, z = byTags tags ∧ tags ≠ ∅).

(** ** Sample inputs, for the concrete instances below *)
Module Sample.
Definition refused : foreign_error := ForeignError "connection refused".

(** An install configuration for platform [name]: base domain
    [example.com], cluster [c], own GCP project [p1]. *)
Definition install (name : string) (publish : types.PublishingStrategy)
    (hostedZone : string) (publicDNSZone privateDNSZone : option gcptypes.DNSZone)
    (cloud : azuretypes.CloudEnvironment) : installconfig.InstallConfig :=
  {| installconfig.Config :=
       {| types.PlatformName := name;
          types.Publish := publish;
          types.BaseDomain := "example.com";
          types.ClusterDomain := "c.example.com";
          types.AWS := {| awstypes.HostedZone := hostedZone |};
          types.Azure :=
            {| azuretypes.BaseDomainResourceGroupName := "base-rg";
               azuretypes.ClusterResourceGroupName := fun infraID => infraID +:+ "-rg" |};
          types.GCP :=
            {| gcptypes.PlatformProjectID := "p1";
               gcptypes.PublicDNSZone := publicDNSZone;
               gcptypes.PrivateDNSZone := privateDNSZone |} |};
     installconfig.Azure := {| installconfig.CloudName := cloud |} |}.

Definition plain (name : string) (publish : types.PublishingStrategy)
    : installconfig.InstallConfig :=
  install name publish "" None None "AzurePublicCloud".

Definition cluster : installconfig.ClusterID := {| installconfig.InfraID := "xyz" |}.

Definition azure_names : AzureDNSConfig :=
  {| GetDNSZoneID := fun rg zone => "/sub/" +:+ rg +:+ "/dnszones/" +:+ zone;
     GetPrivateDNSZoneID :=
       fun rg zone => "/sub/" +:+ rg +:+ "/privateDnsZones/" +:+ zone |}.

(** Every collaborator answers. *)
Definition online : World :=
  {| AWS_Session := inr {| session_handle := "session" |};
     icaws_GetPublicZone := fun _ _ => inr {| Id := "/hostedzone/ABC123" |};
     Azure_DNSConfig := inr azure_names;
     icgcp_GetPublicZone := fun _ _ => inr {| ZoneName := "found-zone" |};
     icibmcloud_NewClient :=
       inr {| ibmcloud_GetDNSZoneIDByName := fun _ _ => inr "ibm-zone" |};
     icpowervs_NewClient :=
       inr {| powervs_GetDNSZoneIDByName := fun _ => inr "powervs-zone" |};
     yaml_Marshal := fun _ => inr "yaml" |}.

(** Sessions and clients are built, every zone lookup is refused. *)
Definition offline : World :=
  {| AWS_Session := inr {| session_handle := "session" |};
     icaws_GetPublicZone := fun _ _ => inl refused;
     Azure_DNSConfig := inr azure_names;
     icgcp_GetPublicZone := fun _ _ => inl refused;
     icibmcloud_NewClient :=
       inr {| ibmcloud_GetDNSZoneIDByName := fun _ _ => inl refused |};
     icpowervs_NewClient :=
       inr {| powervs_GetDNSZoneIDByName := fun _ => inl refused |};
     yaml_Marshal := fun _ => inr "yaml" |}.

Definition generated : DNS :=
  {| FileList := [ {| asset.Filename := dnsCfgFilename; asset.Data := "old" |} ] |}.
End Sample.

(** ** More sample inputs *)
Module Fixture.
Definition denied : foreign_error := ForeignError "access denied".

(** No session, configuration or client can be built. *)
Definition locked : World :=
  {| AWS_Session := inl denied;
     icaws_GetPublicZone := fun _ _ => inl denied;
     Azure_DNSConfig := inl denied;
     icgcp_GetPublicZone := fun _ _ => inl denied;
     icibmcloud_NewClient := inl denied;
     icpowervs_NewClient := inl denied;
     yaml_Marshal := fun _ => inr "yaml" |}.

(** Every cloud collaborator answers, the encoder does not. *)
Definition unencodable : World :=
  {| AWS_Session := AWS_Session Sample.online;
     icaws_GetPublicZone := icaws_GetPublicZone Sample.online;
     Azure_DNSConfig := Azure_DNSConfig Sample.online;
     icgcp_GetPublicZone := icgcp_GetPublicZone Sample.online;
     icibmcloud_NewClient := icibmcloud_NewClient Sample.online;
     icpowervs_NewClient := icpowervs_NewClient Sample.online;
     yaml_Marshal := fun _ => inl denied |}.

(** An agent install configuration with pull secret [pullSecret]. *)
Definition agent_install (pullSecret : string) : agent.OptionalInstallConfig :=
  {| agent.Config := Some {| agent.PullSecret := pullSecret |};
     agent.PullSecretName := "pull-secret";
     agent.ObjectMetaNamespace := "cluster0" |}.

Definition agent_secret (pullSecret : string) : corev1.Secret :=
  agentmanifests.secret_of (agent_install pullSecret)
    {| agent.PullSecret := pullSecret |}.

(** No install configuration: the pointer is nil. *)
Definition agent_no_install : agent.OptionalInstallConfig :=
  {| agent.Config := None;
     agent.PullSecretName := "pull-secret";
     agent.ObjectMetaNamespace := "cluster0" |}.

(** An encoder that writes the pull secret of a secret, and the decoder
    that reads it back; [denied] is not a missing file. *)
Definition agent_world : agentmanifests.World :=
  {| agentmanifests.yaml_Marshal :=
       fun secret =>
         inr (default "" (corev1.StringData secret !! agentmanifests.pullSecretKey));
     agentmanifests.yaml_UnmarshalStrict := fun data => inr (agent_secret data);
     agentmanifests.os_IsNotExist :=
       fun err => bool_decide (foreign_text err = "no such file") |}.

(** Neither the encoder nor the decoder answers. *)
Definition agent_broken : agentmanifests.World :=
  {| agentmanifests.yaml_Marshal := fun _ => inl denied;
     agentmanifests.yaml_UnmarshalStrict := fun _ => inl denied;
     agentmanifests.os_IsNotExist :=
       fun err => bool_decide (foreign_text err = "no such file") |}.

Definition missing : foreign_error := ForeignError "no such file".

(** The asset before anything is generated or loaded. *)
Definition agent_fresh : agentmanifests.AgentPullSecret :=
  {| agentmanifests.File := None; agentmanifests.Config := None |}.

(** A fetcher that finds [data] under the name of the pull-secret file. *)
Definition fetcher_with (data : string) : FileFetcher :=
  {| FetchByName := fun name =>
       if decide (name = agentmanifests.agentPullSecretFilename)
       then inr {| asset.Filename := name; asset.Data := data |}
       else inl missing |}.

(** A fetcher that fails with [err]. *)
Definition fetcher_failing (err : foreign_error) : FileFetcher :=
  {| FetchByName := fun _ => inl err |}.
End Fixture.

(** ** The dispatch: which branch a platform name selects *)
Section Dispatch.
Variable ic : installconfig.InstallConfig.
Variable cid : installconfig.ClusterID.
Variable w : World.

Local Abbreviation name := (types.PlatformName (installconfig.Config ic)).
Local Abbreviation config0 :=
  (dns_config (types.ClusterDomain (installconfig.Config ic)) None None).

Lemma Resolve_at_alibabacloud :
  name = alibabacloudtypes.Name -> Resolve ic cid w = Resolve_alibabacloud ic config0.
Proof. intros H. unfold Resolve. rewrite H. reflexivity. Qed.

Lemma Resolve_at_aws :
  name = awstypes.Name -> Resolve ic cid w = Resolve_aws ic cid w config0.
Proof. intros H. unfold Resolve. rewrite H. reflexivity. Qed.

Lemma Resolve_at_azure :
  name = azuretypes.Name -> Resolve ic cid w = Resolve_azure ic cid w config0.
Proof. intros H. unfold Resolve. rewrite H. reflexivity. Qed.

Lemma Resolve_at_gcp :
  name = gcptypes.Name -> Resolve ic cid w = Resolve_gcp ic cid w config0.
Proof. intros H. unfold Resolve. rewrite H. reflexivity. Qed.

Lemma Resolve_at_ibmcloud :
  name = ibmcloudtypes.Name -> Resolve ic cid w = Resolve_ibmcloud ic w config0.
Proof. intros H. unfold Resolve. rewrite H. reflexivity. Qed.

Lemma Resolve_at_powervs :
  name = powervstypes.Name -> Resolve ic cid w = Resolve_powervs ic w config0.
Proof. intros H. unfold Resolve. rewrite H. reflexivity. Qed.

Lemma Resolve_at_no_dns :
  name ∈ no_dns_platforms -> Resolve ic cid w = ret config0.
Proof.
  intros H. unfold Resolve, no_dns_platforms in *.
  repeat (apply elem_of_cons in H as [-> | H]; [reflexivity |]).
  by apply elem_of_nil in H.
Qed.

Lemma Resolve_at_unknown :
  name ∉ supported_platforms ->
  Resolve ic cid w = fun tr => (tr, inl (errors_New "invalid Platform")).
Proof.
  intros H. unfold Resolve.
  repeat (case_decide;
          [ exfalso; apply H;
            try match goal with
                | Heq : types.PlatformName _ = _ |- _ => rewrite Heq; compute_done
                end | ]).
  - unfold supported_platforms. apply elem_of_app. by right.
  - reflexivity.
Qed.

(** The six branches, the empty case and the default case are all there
    is. *)
Lemma platform_cases :
  name = alibabacloudtypes.Name ∨ name = awstypes.Name ∨ name = azuretypes.Name
  ∨ name = gcptypes.Name ∨ name = ibmcloudtypes.Name ∨ name = powervstypes.Name
  ∨ name ∈ no_dns_platforms ∨ name ∉ supported_platforms.
Proof.
  destruct (decide (name ∈ supported_platforms)) as [Hin | Hout]; [| tauto].
  unfold supported_platforms in Hin. apply elem_of_app in Hin as [Hin | Hin]; [| tauto].
  repeat (apply elem_of_cons in Hin as [-> | Hin]; [tauto |]).
  by apply elem_of_nil in Hin.
Qed.
End Dispatch.

(** ** Evaluation of the monadic code *)
Ltac run :=
  unfold Resolve_alibabacloud, Resolve_aws, Resolve_azure, Resolve_gcp,
    Resolve_ibmcloud, Resolve_powervs, bind, attempt, ret, external in *.

Lemma external_false ic :
  types.Publish (installconfig.Config ic) ≠ types.ExternalPublishingStrategy ->
  external ic = false.
Proof. intros H. unfold external. by apply bool_decide_eq_false. Qed.

Lemma internal_not_external :
  types.InternalPublishingStrategy ≠ types.ExternalPublishingStrategy.
Proof. discriminate. Qed.

(** What [Generate] does once the switch has produced [config]. *)
Lemma Generate_after_Resolve ic cid w d tr config :
  Resolve ic cid w [] = (tr, inr config) ->
  Generate ic cid w d =
    match yaml_Marshal w config with
    | inl err =>
        (tr, d,
         Some (errors_Wrapf (Foreign err)
                 "failed to create %s manifests from InstallConfig" [DNS_Name]))
    | inr configData =>
        (tr,
         {| FileList :=
              [ {| asset.Filename := dnsCfgFilename; asset.Data := configData |} ] |},
         None)
    end.
Proof. intros H. unfold Generate. by rewrite H. Qed.

(** When the switch fails, [Generate] returns its error and leaves the
    asset as it was. *)
Lemma Generate_after_failure ic cid w d tr err :
  Resolve ic cid w [] = (tr, inl err) -> Generate ic cid w d = (tr, d, Some err).
Proof. intros H. unfold Generate. by rewrite H. Qed.

(** ** The platforms without DNS *)

(** C4: for each of libvirt, openstack, baremetal, none, vsphere, ovirt and
    nutanix, and whatever the publishing strategy, the switch succeeds with
    a configuration that has neither a public nor a private zone, no call
    is issued, and [Generate] returns nil once the configuration is
    encoded. *)
Theorem no_dns_platform_empty_config ic cid w d :
  types.PlatformName (installconfig.Config ic) ∈ no_dns_platforms ->
  let config := dns_config (types.ClusterDomain (installconfig.Config ic)) None None in
  Resolve ic cid w [] = ([], inr config)
  ∧ configv1.PublicZone (configv1.Spec config) = None
  ∧ configv1.PrivateZone (configv1.Spec config) = None
  ∧ ∀ configData, yaml_Marshal w config = inr configData ->
      Generate ic cid w d =
        ([], {| FileList := [ {| asset.Filename := dnsCfgFilename;
                                 asset.Data := configData |} ] |}, None).
Proof.
  intros Hname config.
  assert (Hres : Resolve ic cid w [] = ([], inr config)).
  { by rewrite Resolve_at_no_dns. }
  repeat split; [done |].
  intros configData Hyaml.
  rewrite (Generate_after_Resolve _ _ _ _ _ _ Hres). by rewrite Hyaml.
Qed.

Lemma no_dns_platform_empty_config_witness :
  Forall
    (fun name =>
       Forall
         (fun publish =>
            Resolve (Sample.plain name publish) Sample.cluster Sample.offline []
            = ([], inr (dns_config "c.example.com" None None)))
         [types.ExternalPublishingStrategy; types.InternalPublishingStrategy])
    no_dns_platforms
  ∧ Generate (Sample.plain nonetypes.Name types.InternalPublishingStrategy)
      Sample.cluster Sample.offline Sample.generated
    = ([], {| FileList := [ {| asset.Filename := dnsCfgFilename;
                               asset.Data := "yaml" |} ] |}, None).
Proof.
  split.
  - unfold no_dns_platforms.
    repeat (apply Forall_cons; split;
            [ repeat (apply Forall_cons; split;
                      [ refine (proj1 (no_dns_platform_empty_config _ _ _ Sample.generated _));
                        compute_done | ]);
              apply Forall_nil_2 | ]).
    apply Forall_nil_2.
  - refine (proj2 (proj2 (proj2
      (no_dns_platform_empty_config _ _ _ Sample.generated _))) "yaml" _);
      first [reflexivity | compute_done].
Defined.

(** ** Alibaba Cloud *)

(** C10: on Alibaba Cloud no call is issued; the private zone always has
    the cluster domain as its ID and the tag type=private, and the public
    zone has the base domain as its ID and the tag type=public exactly when
    the publishing strategy is External. *)
Theorem alibabacloud_zones ic cid w :
  types.PlatformName (installconfig.Config ic) = alibabacloudtypes.Name ->
  let Config := installconfig.Config ic in
  Resolve ic cid w [] =
    ([], inr (dns_config (types.ClusterDomain Config)
                (if decide (types.Publish Config = types.ExternalPublishingStrategy)
                 then Some {| configv1.ID := types.BaseDomain Config;
                              configv1.Tags := {[ "type" := "public" ]} |}
                 else None)
                (Some {| configv1.ID := types.ClusterDomain Config;
                         configv1.Tags := {[ "type" := "private" ]} |}))).
Proof.
  intros Hname Config. subst Config. rewrite Resolve_at_alibabacloud by done. run.
  destruct (decide (types.Publish _ = _)) as [Hp | Hp];
    [rewrite bool_decide_eq_true_2 by done | rewrite bool_decide_eq_false_2 by done];
    reflexivity.
Qed.

Lemma alibabacloud_zones_witness :
  Resolve (Sample.plain alibabacloudtypes.Name types.ExternalPublishingStrategy)
    Sample.cluster Sample.offline []
  = ([], inr (dns_config "c.example.com"
                (Some {| configv1.ID := "example.com";
                         configv1.Tags := {[ "type" := "public" ]} |})
                (Some {| configv1.ID := "c.example.com";
                         configv1.Tags := {[ "type" := "private" ]} |})))
  ∧ Resolve (Sample.plain alibabacloudtypes.Name types.InternalPublishingStrategy)
      Sample.cluster Sample.offline []
    = ([], inr (dns_config "c.example.com" None
                  (Some {| configv1.ID := "c.example.com";
                           configv1.Tags := {[ "type" := "private" ]} |}))).
Proof.
  split.
  - exact (alibabacloud_zones
             (Sample.plain alibabacloudtypes.Name types.ExternalPublishingStrategy)
             Sample.cluster Sample.offline eq_refl).
  - exact (alibabacloud_zones
             (Sample.plain alibabacloudtypes.Name types.InternalPublishingStrategy)
             Sample.cluster Sample.offline eq_refl).
Defined.

(** ** AWS *)

Lemma strip_prefix_app (prefix s : string) : strip_prefix prefix (prefix +:+ s) = Some s.
Proof. induction prefix as [| c prefix IH]; simpl; [done |]. by rewrite Ascii.eqb_refl. Qed.

Lemma strings_TrimPrefix_app (prefix s : string) :
  strings_TrimPrefix (prefix +:+ s) prefix = s.
Proof. unfold strings_TrimPrefix. by rewrite strip_prefix_app. Qed.

(** C5: on AWS, when the publishing strategy is not External (Internal
    included) no call is issued and there is no public zone; when it is
    External and the session and the lookup answer, the public zone is the
    handle of the zone found without its /hostedzone/ prefix, and the
    lookup is the only one issued; the private zone is the operator's
    hosted zone as a by-ID reference when one is given, and otherwise the
    by-tags reference with the cluster tag and the Name tag, for which no
    call is issued. *)
Theorem aws_zones ic cid w :
  types.PlatformName (installconfig.Config ic) = awstypes.Name ->
  let Config := installconfig.Config ic in
  let InfraID := installconfig.InfraID cid in
  let hostedZone := awstypes.HostedZone (types.AWS Config) in
  let privateZone :=
    if decide (hostedZone = "")
    then byTags {[ "kubernetes.io/cluster/" +:+ InfraID := "owned";
                   "Name" := InfraID +:+ "-int" ]}
    else byID hostedZone in
  (types.Publish Config ≠ types.ExternalPublishingStrategy ->
     Resolve ic cid w [] =
       ([], inr (dns_config (types.ClusterDomain Config) None (Some privateZone))))
  ∧ (types.Publish Config = types.ExternalPublishingStrategy ->
     ∀ sess zone,
       AWS_Session w = inr sess ->
       icaws_GetPublicZone w sess (types.BaseDomain Config) = inr zone ->
       Resolve ic cid w [] =
         ([CallAWSSession; CallAWSGetPublicZone (types.BaseDomain Config)],
          inr (dns_config (types.ClusterDomain Config)
                 (Some (byID (strings_TrimPrefix (Id zone) "/hostedzone/")))
                 (Some privateZone))))
  ∧ (∀ id, strings_TrimPrefix ("/hostedzone/" +:+ id) "/hostedzone/" = id).
Proof.
  intros Hname Config InfraID hostedZone privateZone.
  subst Config InfraID hostedZone privateZone.
  rewrite Resolve_at_aws by done.
  split; [| split; [| intros id; apply strings_TrimPrefix_app]].
  - intros Hp. run. rewrite bool_decide_eq_false_2 by done.
    by destruct (decide _).
  - intros Hp sess zone Hsess Hzone. run. rewrite bool_decide_eq_true_2 by done.
    rewrite Hsess, Hzone. by destruct (decide _).
Qed.

Lemma aws_zones_witness :
  let cluster := {| installconfig.InfraID := "abc123" |} in
  Resolve (Sample.plain awstypes.Name types.InternalPublishingStrategy)
    cluster Sample.offline []
  = ([], inr (dns_config "c.example.com" None
                (Some (byTags {[ "kubernetes.io/cluster/abc123" := "owned";
                                 "Name" := "abc123-int" ]}))))
  ∧ Resolve (Sample.install awstypes.Name types.ExternalPublishingStrategy
               "Z0HOSTED" None None "")
      cluster Sample.online []
    = ([CallAWSSession; CallAWSGetPublicZone "example.com"],
       inr (dns_config "c.example.com" (Some (byID "ABC123"))
              (Some (byID "Z0HOSTED")))).
Proof.
  split.
  - exact (proj1
             (aws_zones (Sample.plain awstypes.Name types.InternalPublishingStrategy)
                {| installconfig.InfraID := "abc123" |} Sample.offline eq_refl)
             internal_not_external).
  - exact (proj1 (proj2
             (aws_zones (Sample.install awstypes.Name types.ExternalPublishingStrategy
                           "Z0HOSTED" None None "")
                {| installconfig.InfraID := "abc123" |} Sample.online eq_refl))
             eq_refl {| session_handle := "session" |}
             {| Id := "/hostedzone/ABC123" |} eq_refl eq_refl).
Defined.

(** ** Azure *)

(** C9: on Azure, once the DNS configuration of the subscription is at
    hand, the private zone is left out of the output exactly when the cloud
    is the Stack cloud, whatever the publishing strategy; on every other
    cloud it is the by-ID reference named from the cluster resource group
    and the cluster domain. *)
Theorem azure_private_zone ic cid w dnsConfig :
  types.PlatformName (installconfig.Config ic) = azuretypes.Name ->
  Azure_DNSConfig w = inr dnsConfig ->
  let Config := installconfig.Config ic in
  let CloudName := installconfig.CloudName (installconfig.Azure ic) in
  ∃ config,
    Resolve ic cid w [] = ([CallAzureDNSConfig], inr config)
    ∧ (configv1.PrivateZone (configv1.Spec config) = None
       ↔ CloudName = azuretypes.StackCloud)
    ∧ (CloudName ≠ azuretypes.StackCloud ->
       configv1.PrivateZone (configv1.Spec config) =
         Some (byID (GetPrivateDNSZoneID dnsConfig
                       (azuretypes.ClusterResourceGroupName (types.Azure Config)
                          (installconfig.InfraID cid))
                       (types.ClusterDomain Config)))).
Proof.
  intros Hname Hdns Config CloudName. subst Config CloudName.
  rewrite Resolve_at_azure by done. run. rewrite Hdns.
  eexists; split; [reflexivity |].
  destruct (decide (installconfig.CloudName _ ≠ _)) as [Hc | Hc].
  - (* any other cloud: the private zone is assigned *)
    split; [split; [discriminate | done] | done].
  - (* the Stack cloud: the assignment is skipped *)
    apply dec_stable in Hc.
    split; [split; [done | by destruct (bool_decide _)] | done].
Qed.

Lemma azure_private_zone_witness :
  (∃ config,
     Resolve (Sample.install azuretypes.Name types.InternalPublishingStrategy
                "" None None "AzurePublicCloud") Sample.cluster Sample.online []
     = ([CallAzureDNSConfig], inr config)
     ∧ (configv1.PrivateZone (configv1.Spec config) = None
        ↔ "AzurePublicCloud" = azuretypes.StackCloud)
     ∧ ("AzurePublicCloud" ≠ azuretypes.StackCloud ->
        configv1.PrivateZone (configv1.Spec config)
        = Some (byID "/sub/xyz-rg/privateDnsZones/c.example.com")))
  ∧ (∃ config,
     Resolve (Sample.install azuretypes.Name types.ExternalPublishingStrategy
                "" None None azuretypes.StackCloud) Sample.cluster Sample.online []
     = ([CallAzureDNSConfig], inr config)
     ∧ (configv1.PrivateZone (configv1.Spec config) = None
        ↔ azuretypes.StackCloud = azuretypes.StackCloud)
     ∧ (azuretypes.StackCloud ≠ azuretypes.StackCloud ->
        configv1.PrivateZone (configv1.Spec config)
        = Some (byID "/sub/xyz-rg/privateDnsZones/c.example.com"))).
Proof.
  split.
  - exact (azure_private_zone
             (Sample.install azuretypes.Name types.InternalPublishingStrategy
                "" None None "AzurePublicCloud")
             Sample.cluster Sample.online Sample.azure_names eq_refl eq_refl).
  - exact (azure_private_zone
             (Sample.install azuretypes.Name types.ExternalPublishingStrategy
                "" None None azuretypes.StackCloud)
             Sample.cluster Sample.online Sample.azure_names eq_refl eq_refl).
Defined.

(** ** GCP *)

Lemma append_nonempty_r (s t : string) : t ≠ "" -> s +:+ t ≠ "".
Proof. intros Ht. destruct s; simpl; [done | discriminate]. Qed.

(** The private-zone part of the GCP branch when a private-zone override
    with an ID is given: whatever the public part produced, the override is
    assigned to the public zone and the private zone stays unset. *)
Lemma Resolve_gcp_private_override ic cid w private tr result :
  types.PlatformName (installconfig.Config ic) = gcptypes.Name ->
  gcptypes.PrivateDNSZone (types.GCP (installconfig.Config ic)) = Some private ->
  gcptypes.ID private ≠ "" ->
  Resolve ic cid w [] = (tr, inr result) ->
  configv1.PrivateZone (configv1.Spec result) = None
  ∧ configv1.PublicZone (configv1.Spec result) =
      Some (byID (override_zoneID
                    (gcptypes.PlatformProjectID (types.GCP (installconfig.Config ic)))
                    private)).
Proof.
  intros Hname Hpriv Hid. rewrite Resolve_at_gcp by done. run.
  rewrite Hpriv. unfold override_zoneID. intros H.
  repeat case_match; simplify_eq; done.
Qed.

(** X11: on GCP without a private-zone override (a nil pointer or an
    empty ID) the private zone is the one the installer creates,
    byID(<infraID>-private-zone), and the only call the branch can have
    issued is the public-zone search. *)
Lemma Resolve_gcp_private_default ic cid w tr result :
  types.PlatformName (installconfig.Config ic) = gcptypes.Name ->
  no_override (gcptypes.PrivateDNSZone (types.GCP (installconfig.Config ic))) ->
  Resolve ic cid w [] = (tr, inr result) ->
  configv1.PrivateZone (configv1.Spec result) =
    Some (byID (installconfig.InfraID cid +:+ "-private-zone"))
  ∧ (tr = []
     ∨ tr = [CallGCPGetPublicZone
               (gcptypes.PlatformProjectID (types.GCP (installconfig.Config ic)))
               (types.BaseDomain (installconfig.Config ic))]).
Proof.
  intros Hname Hpriv. rewrite Resolve_at_gcp by done. run.
  unfold no_override in Hpriv. intros H.
  repeat case_match; simplify_eq; auto.
Qed.

(** With a public-zone override and no private-zone override, the public
    zone is the override and no call is issued. *)
Lemma Resolve_gcp_public_override ic cid w public :
  types.PlatformName (installconfig.Config ic) = gcptypes.Name ->
  types.Publish (installconfig.Config ic) = types.ExternalPublishingStrategy ->
  gcptypes.PublicDNSZone (types.GCP (installconfig.Config ic)) = Some public ->
  gcptypes.ID public ≠ "" ->
  no_override (gcptypes.PrivateDNSZone (types.GCP (installconfig.Config ic))) ->
  Resolve ic cid w [] =
    ([], inr (dns_config (types.ClusterDomain (installconfig.Config ic))
                (Some (byID (override_zoneID
                               (gcptypes.PlatformProjectID
                                  (types.GCP (installconfig.Config ic)))
                               public)))
                (Some (byID (installconfig.InfraID cid +:+ "-private-zone"))))).
Proof.
  intros Hname Hp Hpub Hid Hpriv. rewrite Resolve_at_gcp by done. run.
  rewrite bool_decide_eq_true_2 by done. rewrite Hpub. simpl.
  unfold no_override in Hpriv. unfold override_zoneID.
  repeat case_match; simplify_eq; done.
Qed.

(** C1: a GCP install whose private-zone override is the zone pz of project
    p2 (own project p1) should get the private zone
    byID(project/p2/managedZones/pz); the code leaves the private zone
    unset and puts that reference into the public zone, here under the
    Internal publishing strategy. *)
Theorem gcp_private_override_lands_in_public_zone :
  Resolve
    (Sample.install gcptypes.Name types.InternalPublishingStrategy ""
       None (Some {| gcptypes.ID := "pz"; gcptypes.ProjectID := "p2" |}) "")
    Sample.cluster Sample.online []
  = ([], inr (dns_config "c.example.com"
                (Some (byID "project/p2/managedZones/pz")) None)).
Proof. reflexivity. Qed.

(** C2: under the Internal publishing strategy the output should have no
    public zone; on GCP with a private-zone override (zone pz, no project)
    the code returns a configuration whose public zone is byID(pz). *)
Theorem gcp_internal_publish_has_public_zone :
  let ic :=
    Sample.install gcptypes.Name types.InternalPublishingStrategy ""
      None (Some {| gcptypes.ID := "pz"; gcptypes.ProjectID := "" |}) "" in
  types.Publish (installconfig.Config ic) = types.InternalPublishingStrategy
  ∧ ∃ config,
      Generate ic Sample.cluster Sample.online {| FileList := [] |}
      = ([], {| FileList := [ {| asset.Filename := dnsCfgFilename;
                                 asset.Data := "yaml" |} ] |}, None)
      ∧ Resolve ic Sample.cluster Sample.online [] = ([], inr config)
      ∧ configv1.PublicZone (configv1.Spec config) = Some (byID "pz").
Proof.
  split; [reflexivity |].
  exists (dns_config "c.example.com" (Some (byID "pz")) None).
  split; [| split]; reflexivity.
Qed.

(** C6: with the External strategy, own project p1 and the public-zone
    override z1 of project p2, the public zone should be
    byID(project/p2/managedZones/z1); when a private-zone override (zone
    pz) is given as well, the code overwrites the public zone with byID(pz)
    and sets no private zone. *)
Theorem gcp_public_override_overwritten :
  Resolve
    (Sample.install gcptypes.Name types.ExternalPublishingStrategy ""
       (Some {| gcptypes.ID := "z1"; gcptypes.ProjectID := "p2" |})
       (Some {| gcptypes.ID := "pz"; gcptypes.ProjectID := "" |}) "")
    Sample.cluster Sample.online []
  = ([], inr (dns_config "c.example.com" (Some (byID "pz")) None)).
Proof. reflexivity. Qed.

(** X12: apart from a GCP install with a private-zone override, a
    configuration the switch produces has a public zone only under the
    External strategy, on every platform. *)
Lemma public_zone_only_when_external ic cid w tr config :
  Resolve ic cid w [] = (tr, inr config) ->
  types.Publish (installconfig.Config ic) ≠ types.ExternalPublishingStrategy ->
  (types.PlatformName (installconfig.Config ic) = gcptypes.Name ->
   no_override (gcptypes.PrivateDNSZone (types.GCP (installconfig.Config ic)))) ->
  configv1.PublicZone (configv1.Spec config) = None.
Proof.
  intros Hres Hp Hgcp. apply external_false in Hp.
  destruct (platform_cases ic)
    as [Hn | [Hn | [Hn | [Hn | [Hn | [Hn | [Hn | Hn]]]]]]].
  - rewrite Resolve_at_alibabacloud in Hres by done. run. rewrite Hp in Hres.
    by simplify_eq.
  - rewrite Resolve_at_aws in Hres by done. run. rewrite Hp in Hres.
    repeat case_match; by simplify_eq.
  - rewrite Resolve_at_azure in Hres by done. run. rewrite Hp in Hres.
    repeat case_match; by simplify_eq.
  - specialize (Hgcp Hn). unfold no_override in Hgcp.
    rewrite Resolve_at_gcp in Hres by done. run. rewrite Hp in Hres.
    repeat case_match; by simplify_eq.
  - rewrite Resolve_at_ibmcloud in Hres by done. run. rewrite Hp in Hres.
    repeat case_match; by simplify_eq.
  - rewrite Resolve_at_powervs in Hres by done. run. rewrite Hp in Hres.
    repeat case_match; by simplify_eq.
  - rewrite Resolve_at_no_dns in Hres by done. run. by simplify_eq.
  - rewrite Resolve_at_unknown in Hres by done. by simplify_eq.
Qed.

(** ** Errors *)

(** Whatever error [Generate] returns, the file list of the asset is the
    one it had. *)
Lemma Generate_error_keeps_FileList ic cid w d tr d' err :
  Generate ic cid w d = (tr, d', Some err) -> d' = d.
Proof. unfold Generate. intros H. repeat case_match; by simplify_eq. Qed.

(** An error of a supported platform comes from a collaborator: the cause
    under its wraps is foreign. *)
Lemma Resolve_error_foreign ic cid w tr err :
  types.PlatformName (installconfig.Config ic) ∈ supported_platforms ->
  Resolve ic cid w [] = (tr, inl err) ->
  ∃ e, errors_Cause err = Foreign e.
Proof.
  intros Hin Hres.
  destruct (platform_cases ic)
    as [Hn | [Hn | [Hn | [Hn | [Hn | [Hn | [Hn | Hn]]]]]]]; [.. | done].
  - rewrite Resolve_at_alibabacloud in Hres by done. run.
    repeat case_match; by simplify_eq.
  - rewrite Resolve_at_aws in Hres by done. run.
    repeat case_match; simplify_eq; simpl; eauto.
  - rewrite Resolve_at_azure in Hres by done. run.
    repeat case_match; simplify_eq; simpl; eauto.
  - rewrite Resolve_at_gcp in Hres by done. run.
    repeat case_match; simplify_eq; simpl; eauto.
  - rewrite Resolve_at_ibmcloud in Hres by done. run.
    repeat case_match; simplify_eq; simpl; eauto.
  - rewrite Resolve_at_powervs in Hres by done. run.
    repeat case_match; simplify_eq; simpl; eauto.
  - rewrite Resolve_at_no_dns in Hres by done. run. by simplify_eq.
Qed.

(** C7: a platform name outside the supported ones makes the switch, and
    [Generate], fail with the error invalid Platform: no call is issued, no
    configuration is produced and the file list of the asset is left as it
    was.  And an error of [Generate] whose cause is invalid Platform only
    arises that way. *)
Theorem invalid_platform_iff ic cid w d :
  let name := types.PlatformName (installconfig.Config ic) in
  (name ∉ supported_platforms ->
     Resolve ic cid w [] = ([], inl (errors_New "invalid Platform"))
     ∧ Generate ic cid w d = ([], d, Some (errors_New "invalid Platform")))
  ∧ (∀ tr d' err,
       Generate ic cid w d = (tr, d', Some err) ->
       errors_Cause err = errors_New "invalid Platform" ->
       name ∉ supported_platforms).
Proof.
  intros name. subst name. split.
  - intros Hout.
    assert (Hres : Resolve ic cid w [] = ([], inl (errors_New "invalid Platform"))).
    { by rewrite Resolve_at_unknown. }
    split; [done |]. by apply Generate_after_failure.
  - intros tr d' err Hgen Hcause Hin.
    unfold Generate in Hgen.
    destruct (Resolve ic cid w []) as [tr0 [err0 | config]] eqn:Hres.
    + simplify_eq.
      destruct (Resolve_error_foreign _ _ _ _ _ Hin Hres) as [e He]. congruence.
    + destruct (yaml_Marshal w config); by simplify_eq.
Qed.

Lemma invalid_platform_iff_witness :
  (Resolve (Sample.plain "digitalocean" types.ExternalPublishingStrategy)
     Sample.cluster Sample.online []
   = ([], inl (errors_New "invalid Platform"))
   ∧ Generate (Sample.plain "digitalocean" types.ExternalPublishingStrategy)
       Sample.cluster Sample.online Sample.generated
     = ([], Sample.generated, Some (errors_New "invalid Platform")))
  ∧ "digitalocean" ∉ supported_platforms.
Proof.
  split.
  - refine (proj1 (invalid_platform_iff
                     (Sample.plain "digitalocean" types.ExternalPublishingStrategy)
                     Sample.cluster Sample.online Sample.generated) _).
    compute_done.
  - exact (proj2 (invalid_platform_iff
                    (Sample.plain "digitalocean" types.ExternalPublishingStrategy)
                    Sample.cluster Sample.online Sample.generated)
             [] Sample.generated (errors_New "invalid Platform") eq_refl eq_refl).
Defined.

Lemma strip_prefix_refl (s : string) : strip_prefix s s = Some "".
Proof. induction s as [| c s IH]; simpl; [done |]. by rewrite Ascii.eqb_refl. Qed.

Lemma strings_Contains_refl (s : string) : strings_Contains s s = true.
Proof. destruct s; simpl; [done |]. by rewrite Ascii.eqb_refl, strip_prefix_refl. Qed.

(** The failing lookups, branch by branch. *)
Lemma Resolve_aws_lookup_error ic cid w sess e :
  types.PlatformName (installconfig.Config ic) = awstypes.Name ->
  types.Publish (installconfig.Config ic) = types.ExternalPublishingStrategy ->
  AWS_Session w = inr sess ->
  icaws_GetPublicZone w sess (types.BaseDomain (installconfig.Config ic)) = inl e ->
  Resolve ic cid w [] =
    ([CallAWSSession; CallAWSGetPublicZone (types.BaseDomain (installconfig.Config ic))],
     inl (errors_Wrapf (Foreign e) "getting public zone for %q"
            [types.BaseDomain (installconfig.Config ic)])).
Proof.
  intros Hname Hp Hsess Hzone. rewrite Resolve_at_aws by done. run.
  rewrite bool_decide_eq_true_2 by done. by rewrite Hsess, Hzone.
Qed.

Lemma Resolve_gcp_lookup_error ic cid w e :
  let gcp := types.GCP (installconfig.Config ic) in
  let base := types.BaseDomain (installconfig.Config ic) in
  types.PlatformName (installconfig.Config ic) = gcptypes.Name ->
  types.Publish (installconfig.Config ic) = types.ExternalPublishingStrategy ->
  no_override (gcptypes.PublicDNSZone gcp) ->
  icgcp_GetPublicZone w (gcptypes.PlatformProjectID gcp) base = inl e ->
  Resolve ic cid w [] =
    ([CallGCPGetPublicZone (gcptypes.PlatformProjectID gcp) base],
     inl (errors_Wrapf (Foreign e) "failed to get public zone for %q" [base])).
Proof.
  intros gcp base Hname Hp Hpub Hzone. subst gcp base.
  rewrite Resolve_at_gcp by done. run.
  rewrite bool_decide_eq_true_2 by done. simpl.
  unfold no_override in Hpub. rewrite Hzone. repeat case_match; by simplify_eq.
Qed.

Lemma Resolve_ibmcloud_lookup_error ic cid w client e :
  let Config := installconfig.Config ic in
  types.PlatformName Config = ibmcloudtypes.Name ->
  icibmcloud_NewClient w = inr client ->
  ibmcloud_GetDNSZoneIDByName client (types.BaseDomain Config) (types.Publish Config)
    = inl e ->
  Resolve ic cid w [] =
    ([CallIBMCloudNewClient;
      CallIBMCloudGetDNSZoneIDByName (types.BaseDomain Config) (types.Publish Config)],
     inl (errors_Wrap (Foreign e) "failed to get DNS zone ID")).
Proof.
  intros Config Hname Hclient Hzone. subst Config.
  rewrite Resolve_at_ibmcloud by done. run. by rewrite Hclient, Hzone.
Qed.

Lemma Resolve_powervs_lookup_error ic cid w client e :
  let Config := installconfig.Config ic in
  types.PlatformName Config = powervstypes.Name ->
  icpowervs_NewClient w = inr client ->
  powervs_GetDNSZoneIDByName client (types.BaseDomain Config) = inl e ->
  Resolve ic cid w [] =
    ([CallPowerVSNewClient; CallPowerVSGetDNSZoneIDByName (types.BaseDomain Config)],
     inl (errors_Wrap (Foreign e) "failed to get DNS zone ID")).
Proof.
  intros Config Hname Hclient Hzone. subst Config.
  rewrite Resolve_at_powervs by done. run. by rewrite Hclient, Hzone.
Qed.

Lemma Wrapf_mentions_argument cause format (s : string) :
  context_mentions s (errors_Wrapf cause format [s]) = true.
Proof. simpl. rewrite strings_Contains_refl. simpl. apply orb_true_r. Qed.

(** C8, as the code has it: when the zone lookup of AWS, GCP, IBM Cloud or
    PowerVS answers with an error, the switch produces no configuration and
    [Generate] returns the error wrapped, with the file list of the asset
    left as it was.  On AWS and GCP the wrap names the public zone and
    carries the base domain; on IBM Cloud and PowerVS it is the fixed
    message failed to get DNS zone ID. *)
Theorem lookup_failure_aborts ic cid w d e :
  let Config := installconfig.Config ic in
  let name := types.PlatformName Config in
  let base := types.BaseDomain Config in
  let project := gcptypes.PlatformProjectID (types.GCP Config) in
  let aborts tr err :=
    Resolve ic cid w [] = (tr, inl err) ∧ Generate ic cid w d = (tr, d, Some err) in
  let names_public_zone_of_base err :=
    context_mentions "public zone" err = true ∧ context_mentions base err = true in
  (name = awstypes.Name ->
   types.Publish Config = types.ExternalPublishingStrategy ->
   ∀ sess, AWS_Session w = inr sess ->
   icaws_GetPublicZone w sess base = inl e ->
   let err := errors_Wrapf (Foreign e) "getting public zone for %q" [base] in
   aborts [CallAWSSession; CallAWSGetPublicZone base] err
   ∧ names_public_zone_of_base err)
  ∧ (name = gcptypes.Name ->
     types.Publish Config = types.ExternalPublishingStrategy ->
     no_override (gcptypes.PublicDNSZone (types.GCP Config)) ->
     icgcp_GetPublicZone w project base = inl e ->
     let err := errors_Wrapf (Foreign e) "failed to get public zone for %q" [base] in
     aborts [CallGCPGetPublicZone project base] err
     ∧ names_public_zone_of_base err)
  ∧ (name = ibmcloudtypes.Name ->
     ∀ client, icibmcloud_NewClient w = inr client ->
     ibmcloud_GetDNSZoneIDByName client base (types.Publish Config) = inl e ->
     aborts [CallIBMCloudNewClient;
             CallIBMCloudGetDNSZoneIDByName base (types.Publish Config)]
       (errors_Wrap (Foreign e) "failed to get DNS zone ID"))
  ∧ (name = powervstypes.Name ->
     ∀ client, icpowervs_NewClient w = inr client ->
     powervs_GetDNSZoneIDByName client base = inl e ->
     aborts [CallPowerVSNewClient; CallPowerVSGetDNSZoneIDByName base]
       (errors_Wrap (Foreign e) "failed to get DNS zone ID")).
Proof.
  intros Config name base project aborts names_public_zone_of_base.
  subst Config name base project aborts names_public_zone_of_base.
  split; [| split; [| split]].
  - intros Hname Hp sess Hsess Hzone err.
    pose proof (Resolve_aws_lookup_error _ cid _ _ _ Hname Hp Hsess Hzone) as Hres.
    split; [split; [done | by apply Generate_after_failure] |].
    split; [reflexivity | apply Wrapf_mentions_argument].
  - intros Hname Hp Hpub Hzone err.
    pose proof (Resolve_gcp_lookup_error _ cid _ _ Hname Hp Hpub Hzone) as Hres.
    split; [split; [done | by apply Generate_after_failure] |].
    split; [reflexivity | apply Wrapf_mentions_argument].
  - intros Hname client Hclient Hzone.
    pose proof (Resolve_ibmcloud_lookup_error _ cid _ _ _ Hname Hclient Hzone) as Hres.
    split; [done | by apply Generate_after_failure].
  - intros Hname client Hclient Hzone.
    pose proof (Resolve_powervs_lookup_error _ cid _ _ _ Hname Hclient Hzone) as Hres.
    split; [done | by apply Generate_after_failure].
Qed.

Lemma lookup_failure_aborts_witness :
  let refused := Foreign Sample.refused in
  Generate (Sample.plain awstypes.Name types.ExternalPublishingStrategy)
    Sample.cluster Sample.offline Sample.generated
  = ([CallAWSSession; CallAWSGetPublicZone "example.com"], Sample.generated,
     Some (errors_Wrapf refused "getting public zone for %q" ["example.com"]))
  ∧ Generate (Sample.plain gcptypes.Name types.ExternalPublishingStrategy)
      Sample.cluster Sample.offline Sample.generated
    = ([CallGCPGetPublicZone "p1" "example.com"], Sample.generated,
       Some (errors_Wrapf refused "failed to get public zone for %q" ["example.com"]))
  ∧ Generate (Sample.plain ibmcloudtypes.Name types.InternalPublishingStrategy)
      Sample.cluster Sample.offline Sample.generated
    = ([CallIBMCloudNewClient;
        CallIBMCloudGetDNSZoneIDByName "example.com" types.InternalPublishingStrategy],
       Sample.generated, Some (errors_Wrap refused "failed to get DNS zone ID"))
  ∧ Generate (Sample.plain powervstypes.Name types.ExternalPublishingStrategy)
      Sample.cluster Sample.offline Sample.generated
    = ([CallPowerVSNewClient; CallPowerVSGetDNSZoneIDByName "example.com"],
       Sample.generated, Some (errors_Wrap refused "failed to get DNS zone ID")).
Proof.
  split; [| split; [| split]].
  - exact (proj2 (proj1
      (proj1 (lookup_failure_aborts
                (Sample.plain awstypes.Name types.ExternalPublishingStrategy)
                Sample.cluster Sample.offline Sample.generated Sample.refused)
         eq_refl eq_refl {| session_handle := "session" |} eq_refl eq_refl))).
  - exact (proj2 (proj1
      (proj1 (proj2 (lookup_failure_aborts
                (Sample.plain gcptypes.Name types.ExternalPublishingStrategy)
                Sample.cluster Sample.offline Sample.generated Sample.refused))
         eq_refl eq_refl I eq_refl))).
  - exact (proj2
      (proj1 (proj2 (proj2 (lookup_failure_aborts
                (Sample.plain ibmcloudtypes.Name types.InternalPublishingStrategy)
                Sample.cluster Sample.offline Sample.generated Sample.refused)))
         eq_refl {| ibmcloud_GetDNSZoneIDByName := fun _ _ => inl Sample.refused |}
         eq_refl eq_refl)).
  - exact (proj2
      (proj2 (proj2 (proj2 (lookup_failure_aborts
                (Sample.plain powervstypes.Name types.ExternalPublishingStrategy)
                Sample.cluster Sample.offline Sample.generated Sample.refused)))
         eq_refl {| powervs_GetDNSZoneIDByName := fun _ => inl Sample.refused |}
         eq_refl eq_refl)).
Defined.

(** C8 as stated fails on IBM Cloud: with base domain example.com and a
    lookup that is refused, the error [Generate] returns is the refusal
    wrapped with a message that mentions neither the base domain nor a zone
    kind (the file list is left as it was). *)
Lemma ibmcloud_lookup_error_lacks_context :
  let err := errors_Wrap (Foreign Sample.refused) "failed to get DNS zone ID" in
  Generate (Sample.plain ibmcloudtypes.Name types.ExternalPublishingStrategy)
    Sample.cluster Sample.offline Sample.generated
  = ([CallIBMCloudNewClient;
      CallIBMCloudGetDNSZoneIDByName "example.com" types.ExternalPublishingStrategy],
     Sample.generated, Some err)
  ∧ context_mentions "example.com" err = false
  ∧ context_mentions "public" err = false
  ∧ context_mentions "private" err = false.
Proof. repeat split. Qed.

(** ** The forms of a zone reference *)

Lemma byID_never_both id : ¬ (id_populated (byID id) ∧ tags_populated (byID id)).
Proof. intros [_ H]. by apply H. Qed.

Lemma byID_exactly_one id : id ≠ "" -> exactly_one_form (byID id).
Proof. intros H. left. split; [done |]. intros Ht. by apply Ht. Qed.

Lemma byTags_never_both tags :
  ¬ (id_populated (byTags tags) ∧ tags_populated (byTags tags)).
Proof. intros [H _]. by apply H. Qed.

Lemma byTags_exactly_one tags : tags ≠ ∅ -> exactly_one_form (byTags tags).
Proof. intros H. right. split; [| done]. intros Hi. by apply Hi. Qed.

Lemma combineGCPZoneInfo_nonempty project zoneName :
  combineGCPZoneInfo project zoneName ≠ "".
Proof. discriminate. Qed.

Ltac by_id :=
  left; eexists; split; [reflexivity |];
  intros (Haws & Hazure & Hgcp & Hibmcloud & Hpowervs);
  first [ done
        | apply combineGCPZoneInfo_nonempty
        | by apply append_nonempty_r
        | by eapply Haws
        | by eapply Hazure
        | by eapply Hgcp
        | by eapply Hibmcloud
        | by eapply Hpowervs ].

Ltac by_tags := right; eexists; split; [reflexivity | apply insert_non_empty].

Lemma Resolve_single_form ic cid w tr config :
  types.PlatformName (installconfig.Config ic) ≠ alibabacloudtypes.Name ->
  Resolve ic cid w [] = (tr, inr config) ->
  Forall (single_form w) (zones config).
Proof.
  intros Hne Hres.
  destruct (platform_cases ic)
    as [Hn | [Hn | [Hn | [Hn | [Hn | [Hn | [Hn | Hn]]]]]]]; [done | ..].
  - rewrite Resolve_at_aws in Hres by done. run.
    repeat case_match; simplify_eq; unfold zones; simpl;
      repeat (apply Forall_cons; split); try apply Forall_nil_2;
      first [by_id | by_tags].
  - rewrite Resolve_at_azure in Hres by done. run.
    repeat case_match; simplify_eq; unfold zones; simpl;
      repeat (apply Forall_cons; split); try apply Forall_nil_2; by_id.
  - rewrite Resolve_at_gcp in Hres by done. run. unfold override_zoneID in *.
    repeat case_match; simplify_eq; unfold zones; simpl;
      repeat (apply Forall_cons; split); try apply Forall_nil_2; by_id.
  - rewrite Resolve_at_ibmcloud in Hres by done. run.
    repeat case_match; simplify_eq; unfold zones; simpl;
      repeat (apply Forall_cons; split); try apply Forall_nil_2; by_id.
  - rewrite Resolve_at_powervs in Hres by done. run.
    repeat case_match; simplify_eq; unfold zones; simpl;
      repeat (apply Forall_cons; split); try apply Forall_nil_2; by_id.
  - rewrite Resolve_at_no_dns in Hres by done. run. simplify_eq. apply Forall_nil_2.
  - rewrite Resolve_at_unknown in Hres by done. by simplify_eq.
Qed.

Lemma single_form_never_both w z :
  single_form w z -> ¬ (id_populated z ∧ tags_populated z).
Proof.
  intros [(id & -> & _) | (tags & -> & _)];
    [apply byID_never_both | apply byTags_never_both].
Qed.

Lemma single_form_exactly_one w z :
  single_form w z -> collaborator_ids_nonempty w -> exactly_one_form z.
Proof.
  intros [(id & -> & Hid) | (tags & -> & Htags)] Hw;
    [apply byID_exactly_one; auto | by apply byTags_exactly_one].
Qed.

(** C3, as the code has it: in a configuration the switch has produced
    for a platform other than Alibaba Cloud, no zone reference has both an
    ID and tags, and each has exactly one of the two when the IDs taken
    from the collaborators (on AWS, the handle after trimming) are not
    empty.  On Alibaba Cloud the public zone, there exactly under the
    External strategy, has the base domain as its ID and the tag
    type=public, and the private zone has the cluster domain as its ID and
    the tag type=private: every zone reference has tags, and has both an
    ID and tags as soon as its domain is not empty. *)
Theorem zone_reference_forms ic cid w tr config :
  Resolve ic cid w [] = (tr, inr config) ->
  let Config := installconfig.Config ic in
  let publicZone := configv1.PublicZone (configv1.Spec config) in
  let privateZone := configv1.PrivateZone (configv1.Spec config) in
  (types.PlatformName Config ≠ alibabacloudtypes.Name ->
   ∀ z, z ∈ zones config ->
     ¬ (id_populated z ∧ tags_populated z)
     ∧ (collaborator_ids_nonempty w -> exactly_one_form z))
  ∧ (types.PlatformName Config = alibabacloudtypes.Name ->
     publicZone =
       (if decide (types.Publish Config = types.ExternalPublishingStrategy)
        then Some {| configv1.ID := types.BaseDomain Config;
                     configv1.Tags := {[ "type" := "public" ]} |}
        else None)
     ∧ privateZone = Some {| configv1.ID := types.ClusterDomain Config;
                             configv1.Tags := {[ "type" := "private" ]} |}
     ∧ (∀ z, z ∈ zones config -> tags_populated z)
     ∧ (∀ z, publicZone = Some z -> types.BaseDomain Config ≠ "" ->
          id_populated z ∧ tags_populated z)
     ∧ (∀ z, privateZone = Some z -> types.ClusterDomain Config ≠ "" ->
          id_populated z ∧ tags_populated z)).
Proof.
  intros Hres Config publicZone privateZone. subst Config publicZone privateZone.
  split.
  - intros Hne z Hz.
    pose proof (Resolve_single_form _ _ _ _ _ Hne Hres) as Hall.
    rewrite Forall_forall in Hall. specialize (Hall z Hz).
    split; [by eapply single_form_never_both | by apply single_form_exactly_one].
  - intros Hname. rewrite Resolve_at_alibabacloud in Hres by done. run.
    assert (Hpublic : ∀ id, tags_populated
              {| configv1.ID := id; configv1.Tags := {[ "type" := "public" ]} |})
      by (intros id; apply insert_non_empty).
    assert (Hprivate : ∀ id, tags_populated
              {| configv1.ID := id; configv1.Tags := {[ "type" := "private" ]} |})
      by (intros id; apply insert_non_empty).
    destruct (decide (types.Publish _ = _)) as [Hp | Hp];
      [rewrite bool_decide_eq_true_2 in Hres by done
      | rewrite bool_decide_eq_false_2 in Hres by done];
      apply pair_equal_spec in Hres as [_ Hres]; injection Hres as <-;
      (split; [reflexivity |]); (split; [reflexivity |]); unfold zones; simpl;
      (split; [| split]).
    + intros z Hz. set_unfold in Hz. destruct_or!; by subst.
    + intros z Hz Hbase. injection Hz as <-. by split.
    + intros z Hz Hcluster. injection Hz as <-. by split.
    + intros z Hz. set_unfold in Hz. destruct_or!; by subst.
    + intros z Hz. discriminate Hz.
    + intros z Hz Hcluster. injection Hz as <-. by split.
Qed.

Lemma collaborator_ids_nonempty_online : collaborator_ids_nonempty Sample.online.
Proof.
  repeat split; intros; simpl in *; simplify_eq;
    repeat split; intros Hempty; vm_compute in *; congruence.
Qed.

Lemma zone_reference_forms_witness :
  let public := {| configv1.ID := "example.com";
                   configv1.Tags := {[ "type" := "public" ]} |} in
  let private := {| configv1.ID := "c.example.com";
                    configv1.Tags := {[ "type" := "private" ]} |} in
  ((¬ (id_populated (byID "ABC123") ∧ tags_populated (byID "ABC123"))
    ∧ exactly_one_form (byID "ABC123"))
   ∧ exactly_one_form
       (byTags {[ "kubernetes.io/cluster/xyz" := "owned"; "Name" := "xyz-int" ]}))
  ∧ (id_populated public ∧ tags_populated public)
  ∧ (id_populated private ∧ tags_populated private).
Proof.
  intros public private.
  pose (aws := Sample.plain awstypes.Name types.ExternalPublishingStrategy).
  pose (aws_config :=
          dns_config "c.example.com" (Some (byID "ABC123"))
            (Some (byTags {[ "kubernetes.io/cluster/xyz" := "owned";
                             "Name" := "xyz-int" ]}))).
  assert (Haws : Resolve aws Sample.cluster Sample.online []
                 = ([CallAWSSession; CallAWSGetPublicZone "example.com"],
                    inr aws_config))
    by reflexivity.
  assert (Hne : types.PlatformName (installconfig.Config aws) ≠ alibabacloudtypes.Name)
    by discriminate.
  pose (alibaba := Sample.plain alibabacloudtypes.Name types.ExternalPublishingStrategy).
  pose (alibaba_config := dns_config "c.example.com" (Some public) (Some private)).
  assert (Halibaba : Resolve alibaba Sample.cluster Sample.online []
                     = ([], inr alibaba_config))
    by reflexivity.
  assert (Hbase : types.BaseDomain (installconfig.Config alibaba) ≠ "")
    by discriminate.
  assert (Hcluster : types.ClusterDomain (installconfig.Config alibaba) ≠ "")
    by discriminate.
  split; [split |].
  - destruct (proj1 (zone_reference_forms aws Sample.cluster Sample.online _ aws_config
                       Haws) Hne (byID "ABC123") (list_elem_of_here _ _))
      as [Hnever Hone].
    exact (conj Hnever (Hone collaborator_ids_nonempty_online)).
  - exact (proj2 (proj1 (zone_reference_forms aws Sample.cluster Sample.online _
                           aws_config Haws)
                    Hne _ (list_elem_of_further _ _ _ (list_elem_of_here _ _)))
             collaborator_ids_nonempty_online).
  - destruct (proj2 (zone_reference_forms alibaba Sample.cluster Sample.online _
                       alibaba_config Halibaba) eq_refl)
      as (_ & _ & _ & Hpub & Hpriv).
    exact (conj (Hpub public eq_refl Hbase) (Hpriv private eq_refl Hcluster)).
Defined.

(** C3 as stated fails on Alibaba Cloud: the private zone of an install
    with cluster domain c.example.com has the ID c.example.com and the tag
    type=private, both forms at once. *)
Lemma alibabacloud_zone_has_both_forms :
  let z := {| configv1.ID := "c.example.com";
              configv1.Tags := {[ "type" := "private" ]} |} in
  Resolve (Sample.plain alibabacloudtypes.Name types.InternalPublishingStrategy)
    Sample.cluster Sample.online []
  = ([], inr (dns_config "c.example.com" None (Some z)))
  ∧ z ∈ zones (dns_config "c.example.com" None (Some z))
  ∧ id_populated z ∧ tags_populated z
  ∧ (exactly_one_form z -> False).
Proof.
  intros z.
  assert (Hid : id_populated z) by (unfold id_populated; simpl; discriminate).
  assert (Htags : tags_populated z) by apply insert_non_empty.
  split; [reflexivity |]. split; [apply list_elem_of_here |].
  split; [done |]. split; [done |].
  intros [[_ H] | [H _]]; by apply H.
Qed.

(** ** Further properties of the DNS asset *)

(** X1: on IBM Cloud and on PowerVS one client is built and one lookup by
    base domain is issued (with the publishing strategy as argument on IBM
    Cloud); the zone ID it answers is the private zone whatever the
    strategy, and the public zone exactly when the strategy is External. *)
Theorem single_lookup_serves_both_zones ic cid w :
  let Config := installconfig.Config ic in
  let base := types.BaseDomain Config in
  let publish := types.Publish Config in
  let result zoneID :=
    dns_config (types.ClusterDomain Config)
      (if decide (publish = types.ExternalPublishingStrategy)
       then Some (byID zoneID) else None)
      (Some (byID zoneID)) in
  (types.PlatformName Config = ibmcloudtypes.Name ->
   ∀ client zoneID,
     icibmcloud_NewClient w = inr client ->
     ibmcloud_GetDNSZoneIDByName client base publish = inr zoneID ->
     Resolve ic cid w [] =
       ([CallIBMCloudNewClient; CallIBMCloudGetDNSZoneIDByName base publish],
        inr (result zoneID)))
  ∧ (types.PlatformName Config = powervstypes.Name ->
     ∀ client zoneID,
       icpowervs_NewClient w = inr client ->
       powervs_GetDNSZoneIDByName client base = inr zoneID ->
       Resolve ic cid w [] =
         ([CallPowerVSNewClient; CallPowerVSGetDNSZoneIDByName base],
          inr (result zoneID))).
Proof.
  intros Config base publish result. subst Config base publish result. split.
  - intros Hname client zoneID Hclient Hzone.
    rewrite Resolve_at_ibmcloud by done. run. rewrite Hclient, Hzone.
    destruct (decide (types.Publish _ = _)) as [Hp | Hp];
      [rewrite bool_decide_eq_true_2 by done | rewrite bool_decide_eq_false_2 by done];
      reflexivity.
  - intros Hname client zoneID Hclient Hzone.
    rewrite Resolve_at_powervs by done. run. rewrite Hclient, Hzone.
    destruct (decide (types.Publish _ = _)) as [Hp | Hp];
      [rewrite bool_decide_eq_true_2 by done | rewrite bool_decide_eq_false_2 by done];
      reflexivity.
Qed.

Lemma single_lookup_serves_both_zones_witness :
  Resolve (Sample.plain ibmcloudtypes.Name types.InternalPublishingStrategy)
    Sample.cluster Sample.online []
  = ([CallIBMCloudNewClient;
      CallIBMCloudGetDNSZoneIDByName "example.com" types.InternalPublishingStrategy],
     inr (dns_config "c.example.com" None (Some (byID "ibm-zone"))))
  ∧ Resolve (Sample.plain powervstypes.Name types.ExternalPublishingStrategy)
      Sample.cluster Sample.online []
    = ([CallPowerVSNewClient; CallPowerVSGetDNSZoneIDByName "example.com"],
       inr (dns_config "c.example.com" (Some (byID "powervs-zone"))
              (Some (byID "powervs-zone")))).
Proof.
  split.
  - exact (proj1 (single_lookup_serves_both_zones
                    (Sample.plain ibmcloudtypes.Name types.InternalPublishingStrategy)
                    Sample.cluster Sample.online)
             eq_refl {| ibmcloud_GetDNSZoneIDByName := fun _ _ => inr "ibm-zone" |}
             "ibm-zone" eq_refl eq_refl).
  - exact (proj2 (single_lookup_serves_both_zones
                    (Sample.plain powervstypes.Name types.ExternalPublishingStrategy)
                    Sample.cluster Sample.online)
             eq_refl {| powervs_GetDNSZoneIDByName := fun _ => inr "powervs-zone" |}
             "powervs-zone" eq_refl eq_refl).
Defined.

(** X2: when a session or a client cannot be built, no zone lookup is
    issued, no configuration is produced and the file list is left as it
    was; the error is wrapped with the message of the platform (AWS, under
    the External strategy; IBM Cloud; PowerVS), and on Azure the error of
    [DNSConfig()] is returned as it is. *)
Theorem setup_failure_aborts ic cid w d e :
  let Config := installconfig.Config ic in
  let name := types.PlatformName Config in
  let aborts call err :=
    Resolve ic cid w [] = ([call], inl err)
    ∧ Generate ic cid w d = ([call], d, Some err) in
  (name = awstypes.Name ->
   types.Publish Config = types.ExternalPublishingStrategy ->
   AWS_Session w = inl e ->
   aborts CallAWSSession (errors_Wrap (Foreign e) "failed to initialize session"))
  ∧ (name = azuretypes.Name ->
     Azure_DNSConfig w = inl e ->
     aborts CallAzureDNSConfig (Foreign e))
  ∧ (name = ibmcloudtypes.Name ->
     icibmcloud_NewClient w = inl e ->
     aborts CallIBMCloudNewClient
       (errors_Wrap (Foreign e) "failed to get IBM Cloud client"))
  ∧ (name = powervstypes.Name ->
     icpowervs_NewClient w = inl e ->
     aborts CallPowerVSNewClient
       (errors_Wrap (Foreign e) "failed to get IBM PowerVS client")).
Proof.
  intros Config name aborts. subst Config name aborts.
  assert (Hboth : ∀ call err,
             Resolve ic cid w [] = ([call], inl err) ->
             Resolve ic cid w [] = ([call], inl err)
             ∧ Generate ic cid w d = ([call], d, Some err)).
  { intros call err Hres. split; [done | by apply Generate_after_failure]. }
  split; [| split; [| split]].
  - intros Hname Hp Hsess. apply Hboth. rewrite Resolve_at_aws by done. run.
    rewrite bool_decide_eq_true_2 by done. by rewrite Hsess.
  - intros Hname Hdns. apply Hboth. rewrite Resolve_at_azure by done. run.
    by rewrite Hdns.
  - intros Hname Hclient. apply Hboth. rewrite Resolve_at_ibmcloud by done. run.
    by rewrite Hclient.
  - intros Hname Hclient. apply Hboth. rewrite Resolve_at_powervs by done. run.
    by rewrite Hclient.
Qed.

Lemma setup_failure_aborts_witness :
  let denied := Foreign Fixture.denied in
  Generate (Sample.plain awstypes.Name types.ExternalPublishingStrategy)
    Sample.cluster Fixture.locked Sample.generated
  = ([CallAWSSession], Sample.generated,
     Some (errors_Wrap denied "failed to initialize session"))
  ∧ Generate (Sample.plain azuretypes.Name types.InternalPublishingStrategy)
      Sample.cluster Fixture.locked Sample.generated
    = ([CallAzureDNSConfig], Sample.generated, Some denied)
  ∧ Generate (Sample.plain ibmcloudtypes.Name types.InternalPublishingStrategy)
      Sample.cluster Fixture.locked Sample.generated
    = ([CallIBMCloudNewClient], Sample.generated,
       Some (errors_Wrap denied "failed to get IBM Cloud client"))
  ∧ Generate (Sample.plain powervstypes.Name types.ExternalPublishingStrategy)
      Sample.cluster Fixture.locked Sample.generated
    = ([CallPowerVSNewClient], Sample.generated,
       Some (errors_Wrap denied "failed to get IBM PowerVS client")).
Proof.
  split; [| split; [| split]].
  - exact (proj2 (proj1 (setup_failure_aborts
      (Sample.plain awstypes.Name types.ExternalPublishingStrategy)
      Sample.cluster Fixture.locked Sample.generated Fixture.denied)
      eq_refl eq_refl eq_refl)).
  - exact (proj2 (proj1 (proj2 (setup_failure_aborts
      (Sample.plain azuretypes.Name types.InternalPublishingStrategy)
      Sample.cluster Fixture.locked Sample.generated Fixture.denied))
      eq_refl eq_refl)).
  - exact (proj2 (proj1 (proj2 (proj2 (setup_failure_aborts
      (Sample.plain ibmcloudtypes.Name types.InternalPublishingStrategy)
      Sample.cluster Fixture.locked Sample.generated Fixture.denied)))
      eq_refl eq_refl)).
  - exact (proj2 (proj2 (proj2 (proj2 (setup_failure_aborts
      (Sample.plain powervstypes.Name types.ExternalPublishingStrategy)
      Sample.cluster Fixture.locked Sample.generated Fixture.denied)))
      eq_refl eq_refl)).
Defined.

(** X3: on Azure [DNSConfig()] is called whatever the publishing strategy;
    once it answers, the public zone is the by-ID reference named from the
    resource group of the base domain and the base domain exactly when the
    strategy is External, and the private zone is there exactly when the
    cloud is not the Stack cloud.  On the Stack cloud without External
    publishing the configuration has no zone at all. *)
Theorem azure_zones ic cid w dnsConfig :
  types.PlatformName (installconfig.Config ic) = azuretypes.Name ->
  Azure_DNSConfig w = inr dnsConfig ->
  let Config := installconfig.Config ic in
  Resolve ic cid w [] =
    ([CallAzureDNSConfig],
     inr (dns_config (types.ClusterDomain Config)
            (if decide (types.Publish Config = types.ExternalPublishingStrategy)
             then Some (byID (GetDNSZoneID dnsConfig
                                (azuretypes.BaseDomainResourceGroupName
                                   (types.Azure Config))
                                (types.BaseDomain Config)))
             else None)
            (if decide (installconfig.CloudName (installconfig.Azure ic)
                        = azuretypes.StackCloud)
             then None
             else Some (byID (GetPrivateDNSZoneID dnsConfig
                                (azuretypes.ClusterResourceGroupName
                                   (types.Azure Config) (installconfig.InfraID cid))
                                (types.ClusterDomain Config)))))).
Proof.
  intros Hname Hdns Config. subst Config.
  rewrite Resolve_at_azure by done. run. rewrite Hdns.
  destruct (decide (types.Publish _ = _)) as [Hp | Hp];
    [rewrite bool_decide_eq_true_2 by done | rewrite bool_decide_eq_false_2 by done];
    destruct (decide (installconfig.CloudName _ = _)) as [Hc | Hc];
    destruct (decide (installconfig.CloudName _ ≠ _)); done.
Qed.

Lemma azure_zones_witness :
  Resolve (Sample.install azuretypes.Name types.ExternalPublishingStrategy
             "" None None azuretypes.StackCloud) Sample.cluster Sample.online []
  = ([CallAzureDNSConfig],
     inr (dns_config "c.example.com"
            (Some (byID "/sub/base-rg/dnszones/example.com")) None))
  ∧ Resolve (Sample.install azuretypes.Name types.InternalPublishingStrategy
               "" None None azuretypes.StackCloud) Sample.cluster Sample.online []
    = ([CallAzureDNSConfig], inr (dns_config "c.example.com" None None)).
Proof.
  split.
  - exact (azure_zones
             (Sample.install azuretypes.Name types.ExternalPublishingStrategy
                "" None None azuretypes.StackCloud)
             Sample.cluster Sample.online Sample.azure_names eq_refl eq_refl).
  - exact (azure_zones
             (Sample.install azuretypes.Name types.InternalPublishingStrategy
                "" None None azuretypes.StackCloud)
             Sample.cluster Sample.online Sample.azure_names eq_refl eq_refl).
Defined.

(** X4: on GCP under the External strategy, without a public-zone override
    (a nil pointer or an empty ID) and without a private-zone override, the
    project is searched once for the base domain, the public zone is the
    name of the zone found and the private zone the one the installer
    creates. *)
Theorem gcp_public_zone_search ic cid w zone :
  let Config := installconfig.Config ic in
  let gcp := types.GCP Config in
  types.PlatformName Config = gcptypes.Name ->
  types.Publish Config = types.ExternalPublishingStrategy ->
  no_override (gcptypes.PublicDNSZone gcp) ->
  no_override (gcptypes.PrivateDNSZone gcp) ->
  icgcp_GetPublicZone w (gcptypes.PlatformProjectID gcp) (types.BaseDomain Config)
    = inr zone ->
  Resolve ic cid w [] =
    ([CallGCPGetPublicZone (gcptypes.PlatformProjectID gcp) (types.BaseDomain Config)],
     inr (dns_config (types.ClusterDomain Config)
            (Some (byID (ZoneName zone)))
            (Some (byID (installconfig.InfraID cid +:+ "-private-zone"))))).
Proof.
  intros Config gcp Hname Hp Hpub Hpriv Hzone. subst Config gcp.
  rewrite Resolve_at_gcp by done. run. rewrite bool_decide_eq_true_2 by done.
  simpl. rewrite Hzone. unfold no_override in *.
  repeat case_match; simplify_eq; done.
Qed.

Lemma gcp_public_zone_search_witness :
  Resolve (Sample.install gcptypes.Name types.ExternalPublishingStrategy ""
             (Some {| gcptypes.ID := ""; gcptypes.ProjectID := "p2" |}) None "")
    Sample.cluster Sample.online []
  = ([CallGCPGetPublicZone "p1" "example.com"],
     inr (dns_config "c.example.com" (Some (byID "found-zone"))
            (Some (byID "xyz-private-zone")))).
Proof.
  exact (gcp_public_zone_search
           (Sample.install gcptypes.Name types.ExternalPublishingStrategy ""
              (Some {| gcptypes.ID := ""; gcptypes.ProjectID := "p2" |}) None "")
           Sample.cluster Sample.online {| ZoneName := "found-zone" |}
           eq_refl eq_refl eq_refl I eq_refl).
Defined.

(** X5: on GCP, when the strategy is not External, the switch issues no
    call and cannot fail, whatever the overrides. *)
Theorem gcp_internal_no_call ic cid w :
  types.PlatformName (installconfig.Config ic) = gcptypes.Name ->
  types.Publish (installconfig.Config ic) ≠ types.ExternalPublishingStrategy ->
  ∃ config, Resolve ic cid w [] = ([], inr config).
Proof.
  intros Hname Hp. rewrite Resolve_at_gcp by done. run.
  rewrite bool_decide_eq_false_2 by done. simpl.
  repeat case_match; eauto.
Qed.

Lemma gcp_internal_no_call_witness :
  ∃ config,
    Resolve (Sample.install gcptypes.Name types.InternalPublishingStrategy ""
               (Some {| gcptypes.ID := "z1"; gcptypes.ProjectID := "p2" |}) None "")
      Sample.cluster Fixture.locked []
    = ([], inr config).
Proof.
  exact (gcp_internal_no_call
           (Sample.install gcptypes.Name types.InternalPublishingStrategy ""
              (Some {| gcptypes.ID := "z1"; gcptypes.ProjectID := "p2" |}) None "")
           Sample.cluster Fixture.locked eq_refl internal_not_external).
Defined.

(** X6: [Generate] is all or nothing on the file list: either it returns
    nil, the switch and the encoder have both answered and the files of
    the asset are exactly the one manifest with the encoded configuration
    (whatever files the asset had before), or it returns an error and the
    asset is as it was. *)
Theorem Generate_all_or_nothing ic cid w d :
  let '(tr, d', result) := Generate ic cid w d in
  (result = None
   ∧ ∃ config configData,
       Resolve ic cid w [] = (tr, inr config)
       ∧ yaml_Marshal w config = inr configData
       ∧ DNS_Files d' = [ {| asset.Filename := dnsCfgFilename;
                             asset.Data := configData |} ])
  ∨ (∃ err, result = Some err ∧ d' = d).
Proof.
  unfold Generate.
  destruct (Resolve ic cid w []) as [tr [err | config]] eqn:Hres; [eauto |].
  destruct (yaml_Marshal w config) as [err | configData] eqn:Hyaml; [eauto |].
  left. split; [done |]. by exists config, configData.
Qed.

(** X7: whatever the platform, the inputs and the answers, the switch
    issues at most two of the calls that can fail (the construction of a
    session, of the Azure DNS configuration or of a client, and the zone
    lookups), of which at most one is a zone lookup.  The two naming
    methods of the Azure DNS configuration, which return no error, are not
    among the calls counted. *)
Theorem at_most_one_lookup ic cid w :
  (List.length (Resolve ic cid w []).1 ≤ 2)%nat
  ∧ (List.length (List.filter is_lookup (Resolve ic cid w []).1) ≤ 1)%nat.
Proof.
  destruct (platform_cases ic)
    as [Hn | [Hn | [Hn | [Hn | [Hn | [Hn | [Hn | Hn]]]]]]].
  - rewrite Resolve_at_alibabacloud by done. run. simpl. lia.
  - rewrite Resolve_at_aws by done. run. repeat case_match; simplify_eq; simpl; lia.
  - rewrite Resolve_at_azure by done. run. repeat case_match; simplify_eq; simpl; lia.
  - rewrite Resolve_at_gcp by done. run. repeat case_match; simplify_eq; simpl; lia.
  - rewrite Resolve_at_ibmcloud by done. run.
    repeat case_match; simplify_eq; simpl; lia.
  - rewrite Resolve_at_powervs by done. run.
    repeat case_match; simplify_eq; simpl; lia.
  - rewrite Resolve_at_no_dns by done. run. simpl. lia.
  - rewrite Resolve_at_unknown by done. simpl. lia.
Qed.

(** X8: a configuration the switch produces differs from the initial one
    in its two zones only: the API version, the kind and the name are the
    fixed ones, and the base domain of its spec is the cluster domain (not
    the base domain of the install), on every platform. *)
Theorem resolved_config_shape ic cid w tr config :
  Resolve ic cid w [] = (tr, inr config) ->
  config = dns_config (types.ClusterDomain (installconfig.Config ic))
             (configv1.PublicZone (configv1.Spec config))
             (configv1.PrivateZone (configv1.Spec config)).
Proof.
  intros Hres.
  destruct (platform_cases ic)
    as [Hn | [Hn | [Hn | [Hn | [Hn | [Hn | [Hn | Hn]]]]]]].
  - rewrite Resolve_at_alibabacloud in Hres by done. run.
    repeat case_match; by simplify_eq.
  - rewrite Resolve_at_aws in Hres by done. run. repeat case_match; by simplify_eq.
  - rewrite Resolve_at_azure in Hres by done. run. repeat case_match; by simplify_eq.
  - rewrite Resolve_at_gcp in Hres by done. run. repeat case_match; by simplify_eq.
  - rewrite Resolve_at_ibmcloud in Hres by done. run.
    repeat case_match; by simplify_eq.
  - rewrite Resolve_at_powervs in Hres by done. run.
    repeat case_match; by simplify_eq.
  - rewrite Resolve_at_no_dns in Hres by done. run. by simplify_eq.
  - rewrite Resolve_at_unknown in Hres by done. by simplify_eq.
Qed.

Lemma resolved_config_shape_witness :
  dns_config "c.example.com" (Some (byID "ibm-zone")) (Some (byID "ibm-zone"))
  = dns_config "c.example.com"
      (configv1.PublicZone
         (configv1.Spec
            (dns_config "c.example.com" (Some (byID "ibm-zone"))
               (Some (byID "ibm-zone")))))
      (configv1.PrivateZone
         (configv1.Spec
            (dns_config "c.example.com" (Some (byID "ibm-zone"))
               (Some (byID "ibm-zone")))))
  ∧ configv1.BaseDomain
      (configv1.Spec
         (dns_config "c.example.com" (Some (byID "ibm-zone"))
            (Some (byID "ibm-zone"))))
    ≠ types.BaseDomain
        (installconfig.Config
           (Sample.plain ibmcloudtypes.Name types.ExternalPublishingStrategy)).
Proof.
  split; [| discriminate].
  exact (resolved_config_shape
           (Sample.plain ibmcloudtypes.Name types.ExternalPublishingStrategy)
           Sample.cluster Sample.online
           [CallIBMCloudNewClient;
            CallIBMCloudGetDNSZoneIDByName "example.com"
              types.ExternalPublishingStrategy]
           (dns_config "c.example.com" (Some (byID "ibm-zone"))
              (Some (byID "ibm-zone")))
           eq_refl).
Defined.

Lemma strip_prefix_Some (prefix s rest : string) :
  strip_prefix prefix s = Some rest -> s = prefix +:+ rest.
Proof.
  revert s. induction prefix as [| c prefix IH]; intros s H; simpl in *.
  - by simplify_eq.
  - destruct s as [| d s]; [done |].
    destruct (Ascii.eqb c d) eqn:Hcd; [| done].
    apply Ascii.eqb_eq in Hcd as ->. by rewrite (IH s H).
Qed.

(** X9: a public zone in a configuration for AWS always stems from a
    session that was built and a lookup of the base domain that answered:
    it is a by-ID reference, and its ID is the handle of the zone found
    without the leading /hostedzone/, or the handle itself when the handle
    does not start with /hostedzone/. *)
Theorem aws_public_zone_provenance ic cid w tr config z :
  types.PlatformName (installconfig.Config ic) = awstypes.Name ->
  Resolve ic cid w [] = (tr, inr config) ->
  configv1.PublicZone (configv1.Spec config) = Some z ->
  ∃ sess zone,
    AWS_Session w = inr sess
    ∧ icaws_GetPublicZone w sess (types.BaseDomain (installconfig.Config ic)) = inr zone
    ∧ z = byID (configv1.ID z)
    ∧ (Id zone = "/hostedzone/" +:+ configv1.ID z
       ∨ (configv1.ID z = Id zone ∧ strip_prefix "/hostedzone/" (Id zone) = None)).
Proof.
  intros Hname Hres Hz. rewrite Resolve_at_aws in Hres by done. run.
  destruct (bool_decide _); [| repeat case_match; by simplify_eq].
  destruct (AWS_Session w) as [e | sess] eqn:Hsess; [done |].
  destruct (icaws_GetPublicZone w sess _) as [e | zone] eqn:Hzone; [done |].
  exists sess, zone. split; [done |]. split; [done |].
  assert (Hid : z = byID (strings_TrimPrefix (Id zone) "/hostedzone/")).
  { repeat case_match; by simplify_eq/=. }
  subst z. split; [done |]. simpl. unfold strings_TrimPrefix.
  destruct (strip_prefix "/hostedzone/" (Id zone)) as [rest |] eqn:Hstrip.
  - left. by apply strip_prefix_Some.
  - by right.
Qed.

Lemma aws_public_zone_provenance_witness :
  ∃ sess zone,
    AWS_Session Sample.online = inr sess
    ∧ icaws_GetPublicZone Sample.online sess "example.com" = inr zone
    ∧ byID "ABC123" = byID (configv1.ID (byID "ABC123"))
    ∧ (Id zone = "/hostedzone/" +:+ "ABC123"
       ∨ ("ABC123" = Id zone ∧ strip_prefix "/hostedzone/" (Id zone) = None)).
Proof.
  exact (aws_public_zone_provenance
           (Sample.plain awstypes.Name types.ExternalPublishingStrategy)
           Sample.cluster Sample.online
           [CallAWSSession; CallAWSGetPublicZone "example.com"]
           (dns_config "c.example.com" (Some (byID "ABC123"))
              (Some (byTags {[ "kubernetes.io/cluster/xyz" := "owned";
                               "Name" := "xyz-int" ]})))
           (byID "ABC123") eq_refl eq_refl eq_refl).
Defined.

Lemma String_length_append (a b : string) :
  String.length (a +:+ b) = (String.length a + String.length b)%nat.
Proof. induction a as [| c a IH]; simpl; [done |]. by rewrite IH. Qed.

Lemma combineGCPZoneInfo_not_bare (project zoneName : string) :
  combineGCPZoneInfo project zoneName ≠ zoneName.
Proof.
  intros H. apply (f_equal String.length) in H. unfold combineGCPZoneInfo in H.
  rewrite !String_length_append in H. simpl in H. lia.
Qed.

(** X10: on GCP under the External strategy, with a public-zone override
    that has an ID and without a private-zone override, no call is issued
    and the public zone is a by-ID reference that is the bare ID of the
    override exactly when the project of the override is empty or is the
    install's own, and the composed project/.../managedZones/... reference
    exactly when the override names another project. *)
Theorem gcp_composition_iff_cross_project ic cid w public :
  let Config := installconfig.Config ic in
  let gcp := types.GCP Config in
  let own := gcptypes.PlatformProjectID gcp in
  types.PlatformName Config = gcptypes.Name ->
  types.Publish Config = types.ExternalPublishingStrategy ->
  gcptypes.PublicDNSZone gcp = Some public ->
  gcptypes.ID public ≠ "" ->
  no_override (gcptypes.PrivateDNSZone gcp) ->
  ∃ zoneID,
    Resolve ic cid w [] =
      ([], inr (dns_config (types.ClusterDomain Config) (Some (byID zoneID))
                  (Some (byID (installconfig.InfraID cid +:+ "-private-zone")))))
    ∧ (zoneID = gcptypes.ID public
       ↔ gcptypes.ProjectID public = "" ∨ own = gcptypes.ProjectID public)
    ∧ (zoneID = combineGCPZoneInfo (gcptypes.ProjectID public) (gcptypes.ID public)
       ↔ gcptypes.ProjectID public ≠ "" ∧ own ≠ gcptypes.ProjectID public).
Proof.
  intros Config gcp own Hname Hp Hpub Hid Hpriv. subst Config gcp own.
  eexists. split; [by apply Resolve_gcp_public_override |].
  unfold override_zoneID.
  destruct (decide (gcptypes.ProjectID public ≠ "" ∧ _)) as [Hcross | Hsame].
  - split; split; try done.
    + intros Heq. by apply combineGCPZoneInfo_not_bare in Heq.
    + intros [Hempty | Hown]; by destruct Hcross.
  - split; split; try done.
    + intros _. apply not_and_l in Hsame as [Hempty | Hown];
        [left; by apply dec_stable | right; by apply dec_stable].
    + intros Heq. symmetry in Heq. by apply combineGCPZoneInfo_not_bare in Heq.
Qed.

Lemma gcp_composition_iff_cross_project_witness :
  (∃ zoneID,
     Resolve (Sample.install gcptypes.Name types.ExternalPublishingStrategy ""
                (Some {| gcptypes.ID := "z1"; gcptypes.ProjectID := "p2" |}) None "")
       Sample.cluster Fixture.locked []
     = ([], inr (dns_config "c.example.com" (Some (byID zoneID))
                   (Some (byID "xyz-private-zone"))))
     ∧ (zoneID = "z1" ↔ "p2" = "" ∨ "p1" = "p2")
     ∧ (zoneID = combineGCPZoneInfo "p2" "z1" ↔ "p2" ≠ "" ∧ "p1" ≠ "p2"))
  ∧ (∃ zoneID,
     Resolve (Sample.install gcptypes.Name types.ExternalPublishingStrategy ""
                (Some {| gcptypes.ID := "z1"; gcptypes.ProjectID := "p1" |}) None "")
       Sample.cluster Fixture.locked []
     = ([], inr (dns_config "c.example.com" (Some (byID zoneID))
                   (Some (byID "xyz-private-zone"))))
     ∧ (zoneID = "z1" ↔ "p1" = "" ∨ "p1" = "p1")
     ∧ (zoneID = combineGCPZoneInfo "p1" "z1" ↔ "p1" ≠ "" ∧ "p1" ≠ "p1")).
Proof.
  split.
  - refine (gcp_composition_iff_cross_project
              (Sample.install gcptypes.Name types.ExternalPublishingStrategy ""
                 (Some {| gcptypes.ID := "z1"; gcptypes.ProjectID := "p2" |}) None "")
              Sample.cluster Fixture.locked
              {| gcptypes.ID := "z1"; gcptypes.ProjectID := "p2" |}
              eq_refl eq_refl eq_refl _ I).
    discriminate.
  - refine (gcp_composition_iff_cross_project
              (Sample.install gcptypes.Name types.ExternalPublishingStrategy ""
                 (Some {| gcptypes.ID := "z1"; gcptypes.ProjectID := "p1" |}) None "")
              Sample.cluster Fixture.locked
              {| gcptypes.ID := "z1"; gcptypes.ProjectID := "p1" |}
              eq_refl eq_refl eq_refl _ I).
    discriminate.
Defined.

Lemma Resolve_gcp_private_default_witness :
  configv1.PrivateZone
    (configv1.Spec
       (dns_config "c.example.com" (Some (byID "found-zone"))
          (Some (byID "xyz-private-zone"))))
  = Some (byID ("xyz" +:+ "-private-zone"))
  ∧ ([CallGCPGetPublicZone "p1" "example.com"] = []
     ∨ [CallGCPGetPublicZone "p1" "example.com"]
       = [CallGCPGetPublicZone "p1" "example.com"]).
Proof.
  exact (Resolve_gcp_private_default
           (Sample.install gcptypes.Name types.ExternalPublishingStrategy "" None
              (Some {| gcptypes.ID := ""; gcptypes.ProjectID := "p2" |}) "")
           Sample.cluster Sample.online
           [CallGCPGetPublicZone "p1" "example.com"]
           (dns_config "c.example.com" (Some (byID "found-zone"))
              (Some (byID "xyz-private-zone")))
           eq_refl eq_refl eq_refl).
Defined.

Lemma public_zone_only_when_external_witness :
  configv1.PublicZone
    (configv1.Spec (dns_config "c.example.com" None (Some (byID "ibm-zone"))))
  = None.
Proof.
  refine (public_zone_only_when_external
            (Sample.plain ibmcloudtypes.Name types.InternalPublishingStrategy)
            Sample.cluster Sample.online
            [CallIBMCloudNewClient;
             CallIBMCloudGetDNSZoneIDByName "example.com"
               types.InternalPublishingStrategy]
            (dns_config "c.example.com" None (Some (byID "ibm-zone")))
            eq_refl internal_not_external _).
  discriminate.
Defined.

(** ** The agent pull secret *)
Section AgentPullSecret.
Import agentmanifests.

Variable w : World.

Lemma size_zero_lookup (m : gmap string string) (k : string) :
  size m = 0%nat -> m !! k = None.
Proof. intros H. apply map_size_empty_iff in H as ->. apply lookup_empty. Qed.

(** A secret is valid when its string data has a non-empty value under
    the pull-secret key. *)
Lemma validateSecretIsNotEmpty_nil_iff (config : corev1.Secret) :
  validateSecretIsNotEmpty config = []
  ↔ ∃ pullSecret, corev1.StringData config !! pullSecretKey = Some pullSecret
                  ∧ pullSecret ≠ "".
Proof.
  unfold validateSecretIsNotEmpty.
  destruct (decide (size (corev1.StringData config) = 0%nat)) as [Hsize | Hsize].
  - split; [done |]. intros (s & Hs & _).
    by rewrite (size_zero_lookup _ _ Hsize) in Hs.
  - destruct (corev1.StringData config !! pullSecretKey) as [s |] eqn:Hs.
    + destruct (decide (s = "")) as [-> | Hne]; split; try done.
      * intros (s & Hs' & Hne). by simplify_eq.
      * intros _. by exists s.
    + split; [done |]. intros (s & Hs' & _). done.
Qed.

Lemma validatePullSecret_same (config : corev1.Secret) :
  validatePullSecret config = validateSecretIsNotEmpty config.
Proof. unfold validatePullSecret. by destruct (validateSecretIsNotEmpty config). Qed.

Lemma finish_valid (a : AgentPullSecret) config pullSecret :
  Config a = Some config ->
  corev1.StringData config !! pullSecretKey = Some pullSecret ->
  pullSecret ≠ "" ->
  finish a = None.
Proof.
  intros Hc Hs Hne. unfold finish. rewrite Hc, validatePullSecret_same.
  by rewrite (proj2 (validateSecretIsNotEmpty_nil_iff config))
    by (by exists pullSecret).
Qed.

Lemma finish_nil_valid (a : AgentPullSecret) :
  finish a = None ->
  ∃ config pullSecret,
    Config a = Some config
    ∧ corev1.StringData config !! pullSecretKey = Some pullSecret
    ∧ pullSecret ≠ "".
Proof.
  unfold finish. destruct (Config a) as [config |]; [| done].
  rewrite validatePullSecret_same. unfold ToAggregate.
  destruct (validateSecretIsNotEmpty config) as [| e errs] eqn:Herrs; [| done].
  intros _. apply validateSecretIsNotEmpty_nil_iff in Herrs as (s & Hs & Hne).
  by exists config, s.
Qed.

(** The secret [Generate] builds is valid when the pull secret is not
    empty, and otherwise has the one error of an empty value. *)
Lemma validate_secret_of installConfig config :
  validateSecretIsNotEmpty (secret_of installConfig config)
  = if decide (agent.PullSecret config = "")
    then [field.Required "StringData" "the pull secret does not contain any data"]
    else [].
Proof.
  unfold validateSecretIsNotEmpty, secret_of. cbn [corev1.StringData].
  rewrite map_size_singleton, lookup_singleton_eq.
  destruct (decide (1 = 0)%nat) as [? | _]; [done |].
  by destruct (decide _).
Qed.

(** X13: the validation of a secret finds nothing exactly when the string
    data of the secret has a non-empty value under the key
    .dockerconfigjson; otherwise it reports one error and no more, of type
    Required on the path StringData.  [validatePullSecret] reports the
    same errors. *)
Theorem pull_secret_validation (config : corev1.Secret) :
  let errs := validateSecretIsNotEmpty config in
  (errs = [] ↔ ∃ pullSecret, corev1.StringData config !! pullSecretKey = Some pullSecret
                             ∧ pullSecret ≠ "")
  ∧ (List.length errs ≤ 1)%nat
  ∧ Forall (fun e => field.Type_ e = field.ErrorTypeRequired
                     ∧ field.Field e = "StringData") errs
  ∧ validatePullSecret config = errs.
Proof.
  intros errs. subst errs.
  split; [apply validateSecretIsNotEmpty_nil_iff |].
  split; [| split; [| apply validatePullSecret_same]];
    unfold validateSecretIsNotEmpty; repeat case_match; simpl;
    first [lia | by repeat constructor].
Qed.

(** X14: [finish] returns nil exactly when the asset has a configuration
    whose string data has a non-empty value under .dockerconfigjson.
    Without a configuration it returns the error missing configuration or
    manifest file. *)
Theorem finish_nil_iff (a : AgentPullSecret) :
  (finish a = None
   ↔ ∃ config pullSecret,
       Config a = Some config
       ∧ corev1.StringData config !! pullSecretKey = Some pullSecret
       ∧ pullSecret ≠ "")
  ∧ (Config a = None ->
     finish a = Some (errors_New "missing configuration or manifest file")).
Proof.
  split.
  - split; [apply finish_nil_valid |].
    intros (config & s & Hc & Hs & Hne). by eapply finish_valid.
  - intros Hc. unfold finish. by rewrite Hc.
Qed.

Lemma finish_nil_iff_witness :
  finish Fixture.agent_fresh
  = Some (errors_New "missing configuration or manifest file").
Proof. exact (proj2 (finish_nil_iff Fixture.agent_fresh) eq_refl). Defined.

(** X15: with an install configuration whose pull secret is not empty and
    an encoder that answers, [Generate] returns nil; the asset then holds
    the secret named by the install configuration, whose string data is
    the pull secret under .dockerconfigjson and nothing else, and its one
    file is the encoded secret under the pull-secret file name, whatever
    the asset held before. *)
Theorem AgentPullSecret_Generate_success installConfig config secretData a :
  agent.Config installConfig = Some config ->
  agent.PullSecret config ≠ "" ->
  let secret := secret_of installConfig config in
  yaml_Marshal w secret = inr secretData ->
  let file := {| asset.Filename := agentPullSecretFilename;
                 asset.Data := secretData |} in
  Generate w installConfig a = ({| File := Some file; Config := Some secret |}, None)
  ∧ Files {| File := Some file; Config := Some secret |} = [file]
  ∧ corev1.StringData secret = {[ pullSecretKey := agent.PullSecret config ]}.
Proof.
  intros Hconfig Hne secret Hyaml file. subst secret file.
  split; [| done]. unfold Generate. rewrite Hconfig, Hyaml. simpl.
  f_equal. eapply finish_valid; [reflexivity | apply lookup_singleton_eq | done].
Qed.

(** X16: whenever [Generate] returns nil the asset it leaves passes
    [finish]: it has a configuration with a non-empty pull secret; and if
    there was an install configuration, the asset has exactly one file,
    under the pull-secret file name. *)
Theorem AgentPullSecret_Generate_nil_valid installConfig a a' :
  Generate w installConfig a = (a', None) ->
  finish a' = None
  ∧ (is_Some (agent.Config installConfig) ->
     ∃ secretData,
       Files a' = [ {| asset.Filename := agentPullSecretFilename;
                       asset.Data := secretData |} ]).
Proof.
  unfold Generate. intros H.
  destruct (agent.Config installConfig) as [config |].
  - destruct (yaml_Marshal w _) as [err | secretData];
      apply pair_equal_spec in H as [Ha Hf]; [done |].
    subst a'. split; [done |]. intros _. by exists secretData.
  - apply pair_equal_spec in H as [Ha Hf]. subst a'.
    split; [done |]. by intros [? ?].
Qed.

(** X17: with an install configuration, a failing [Generate] has already
    replaced the configuration of the asset by the new secret.  When the
    encoder fails, the file of the asset is the one it had and the error
    is the encoder's, wrapped; when the pull secret is empty, the file has
    been replaced as well, and the error wraps the one validation error
    of an empty value. *)
Theorem AgentPullSecret_Generate_failure_state installConfig config a :
  agent.Config installConfig = Some config ->
  let secret := secret_of installConfig config in
  (∀ err, yaml_Marshal w secret = inl err ->
     Generate w installConfig a
     = ({| File := File a; Config := Some secret |},
        Some (errors_Wrap (Foreign err) "failed to marshal agent secret")))
  ∧ (∀ secretData,
       yaml_Marshal w secret = inr secretData ->
       agent.PullSecret config = "" ->
       Generate w installConfig a
       = ({| File := Some {| asset.Filename := agentPullSecretFilename;
                             asset.Data := secretData |};
             Config := Some secret |},
          Some (errors_Wrapf
                  (Aggregate [field.Required "StringData"
                                "the pull secret does not contain any data"])
                  "invalid PullSecret configuration" []))).
Proof.
  intros Hconfig secret. subst secret. unfold Generate. rewrite Hconfig. split.
  - intros err Hyaml. by rewrite Hyaml.
  - intros secretData Hyaml Hempty. rewrite Hyaml. cbn [Config]. f_equal.
    unfold finish. cbn [Config].
    rewrite validatePullSecret_same, validate_secret_of.
    by rewrite decide_True.
Qed.

(** X18: without an install configuration (a nil pointer) [Generate]
    leaves the asset as it is and consults no encoder; on an asset without
    a configuration it returns the error missing configuration or manifest
    file, and the asset still has no file to offer. *)
Theorem AgentPullSecret_Generate_without_config installConfig a :
  agent.Config installConfig = None ->
  (Generate w installConfig a).1 = a
  ∧ (Config a = None ->
     (Generate w installConfig a).2
     = Some (errors_New "missing configuration or manifest file"))
  ∧ (File a = None -> Files (Generate w installConfig a).1 = []).
Proof.
  intros Hconfig. unfold Generate. rewrite Hconfig. simpl.
  split; [done |]. split.
  - intros Hc. unfold finish. by rewrite Hc.
  - intros Hf. unfold Files. by rewrite Hf.
Qed.
End AgentPullSecret.

Section AgentPullSecretLoad.
Import agentmanifests.

Variable w : World.
Variable f : FileFetcher.

(** X19: when the pull-secret file cannot be fetched or cannot be decoded,
    [Load] reports the asset as not loaded and leaves it as it was.  A file
    that does not exist is no error; any other fetch error and any decoding
    error is returned wrapped with the file name. *)
Theorem AgentPullSecret_Load_failure_keeps_asset (a : AgentPullSecret) :
  (∀ err,
     FetchByName f agentPullSecretFilename = inl err ->
     Load w f a =
       (a, (false,
            if os_IsNotExist w err then None
            else Some (errors_Wrap (Foreign err)
                         ("failed to load " +:+ agentPullSecretFilename +:+ " file")))))
  ∧ (∀ file err,
       FetchByName f agentPullSecretFilename = inr file ->
       yaml_UnmarshalStrict w (asset.Data file) = inl err ->
       Load w f a =
         (a, (false,
              Some (errors_Wrapf (Foreign err) "failed to unmarshal %s"
                      [agentPullSecretFilename])))).
Proof.
  unfold Load. split.
  - intros err Hfetch. rewrite Hfetch. by destruct (os_IsNotExist w err).
  - intros file err Hfetch Hdecode. by rewrite Hfetch, Hdecode.
Qed.

(** X20: an asset [Load] reports as loaded comes with no error, is the
    fetched file with the secret decoded from it, and passes [finish]: its
    secret has a non-empty pull secret.  And [Load] reports not loaded
    without an error only when the fetch failed on a file that does not
    exist, the asset being untouched. *)
Theorem AgentPullSecret_Load_outcome (a a' : AgentPullSecret) loaded err :
  Load w f a = (a', (loaded, err)) ->
  (loaded = true ->
   err = None
   ∧ finish a' = None
   ∧ ∃ file config,
       FetchByName f agentPullSecretFilename = inr file
       ∧ yaml_UnmarshalStrict w (asset.Data file) = inr config
       ∧ a' = {| File := Some file; Config := Some config |})
  ∧ (loaded = false -> err = None ->
     a' = a
     ∧ ∃ fetchErr,
         FetchByName f agentPullSecretFilename = inl fetchErr
         ∧ os_IsNotExist w fetchErr = true).
Proof.
  unfold Load. intros H.
  destruct (FetchByName f agentPullSecretFilename) as [fetchErr | file] eqn:Hfetch.
  - destruct (os_IsNotExist w fetchErr) eqn:Hmissing;
      apply pair_equal_spec in H as [<- H];
      apply pair_equal_spec in H as [<- <-]; split; try done.
    intros _ _. split; [done |]. by exists fetchErr.
  - destruct (yaml_UnmarshalStrict w (asset.Data file)) as [e | config] eqn:Hdecode.
    + apply pair_equal_spec in H as [<- H].
      apply pair_equal_spec in H as [<- <-]. by split.
    + destruct (finish {| File := Some file; Config := Some config |}) as [e |] eqn:Hfin;
        apply pair_equal_spec in H as [<- H];
        apply pair_equal_spec in H as [<- <-]; split; try done.
      intros _. split; [done |]. split; [done |]. by exists file, config.
Qed.

(** X21: when the file is fetched and decoded but the secret is not valid,
    [Load] returns the validation error and reports not loaded, yet the
    asset has been replaced by the fetched file and the decoded secret. *)
Theorem AgentPullSecret_Load_invalid_replaces_asset (a : AgentPullSecret) file config :
  FetchByName f agentPullSecretFilename = inr file ->
  yaml_UnmarshalStrict w (asset.Data file) = inr config ->
  validateSecretIsNotEmpty config ≠ [] ->
  Load w f a =
    ({| File := Some file; Config := Some config |},
     (false,
      Some (errors_Wrapf (Aggregate (validateSecretIsNotEmpty config))
              "invalid PullSecret configuration" [])))
  ∧ Files (Load w f a).1 = [file].
Proof.
  intros Hfetch Hdecode Hinvalid.
  assert (Hload : Load w f a =
    ({| File := Some file; Config := Some config |},
     (false,
      Some (errors_Wrapf (Aggregate (validateSecretIsNotEmpty config))
              "invalid PullSecret configuration" [])))).
  { unfold Load. rewrite Hfetch, Hdecode. unfold finish. cbn [Config].
    rewrite validatePullSecret_same. unfold ToAggregate.
    by destruct (validateSecretIsNotEmpty config). }
  split; [done |]. by rewrite Hload.
Qed.

(** X22: what [Generate] has written can be loaded back.  If [Generate]
    returned nil for an install configuration, the fetcher finds the file
    of the asset under the pull-secret file name and the decoder reads the
    secret of the asset out of it, then [Load], on any asset, reports
    loaded without error and yields the generated asset. *)
Theorem AgentPullSecret_Generate_then_Load installConfig config a0 a1 a :
  agent.Config installConfig = Some config ->
  Generate w installConfig a0 = (a1, None) ->
  (∀ file, File a1 = Some file ->
           FetchByName f agentPullSecretFilename = inr file) ->
  (∀ file secret, File a1 = Some file -> Config a1 = Some secret ->
                  yaml_UnmarshalStrict w (asset.Data file) = inr secret) ->
  Load w f a = (a1, (true, None)).
Proof.
  intros Hconfig Hgen Hfetch Hdecode. unfold Generate in Hgen.
  rewrite Hconfig in Hgen.
  destruct (yaml_Marshal w _) as [err | secretData];
    apply pair_equal_spec in Hgen as [Ha Hfin]; [done |].
  subst a1. cbn [File Config] in *.
  unfold Load. rewrite (Hfetch _ eq_refl). rewrite (Hdecode _ _ eq_refl eq_refl).
  cbn [Config] in Hfin. by rewrite Hfin.
Qed.
End AgentPullSecretLoad.

Section AgentPullSecretInstances.
Import agentmanifests.

Let token_file : asset.File :=
  {| asset.Filename := agentPullSecretFilename; asset.Data := "token" |}.
Let token_asset : AgentPullSecret :=
  {| File := Some token_file; Config := Some (Fixture.agent_secret "token") |}.
Let empty_file : asset.File :=
  {| asset.Filename := agentPullSecretFilename; asset.Data := "" |}.

Lemma AgentPullSecret_Generate_success_witness :
  Generate Fixture.agent_world (Fixture.agent_install "token") Fixture.agent_fresh
  = (token_asset, None)
  ∧ Files token_asset = [token_file].
Proof.
  refine (let H := AgentPullSecret_Generate_success Fixture.agent_world
                     (Fixture.agent_install "token") {| agent.PullSecret := "token" |}
                     "token" Fixture.agent_fresh eq_refl _ eq_refl in
          conj (proj1 H) (proj1 (proj2 H))).
  discriminate.
Defined.

Lemma AgentPullSecret_Generate_nil_valid_witness :
  finish token_asset = None
  ∧ (is_Some (agent.Config (Fixture.agent_install "token")) ->
     ∃ secretData,
       Files token_asset = [ {| asset.Filename := agentPullSecretFilename;
                                asset.Data := secretData |} ]).
Proof.
  refine (AgentPullSecret_Generate_nil_valid Fixture.agent_world
            (Fixture.agent_install "token") Fixture.agent_fresh token_asset _).
  vm_compute. reflexivity.
Defined.

Lemma AgentPullSecret_Generate_failure_state_witness :
  Generate Fixture.agent_broken (Fixture.agent_install "token") token_asset
  = ({| File := Some token_file; Config := Some (Fixture.agent_secret "token") |},
     Some (errors_Wrap (Foreign Fixture.denied) "failed to marshal agent secret"))
  ∧ Generate Fixture.agent_world (Fixture.agent_install "") Fixture.agent_fresh
    = ({| File := Some empty_file; Config := Some (Fixture.agent_secret "") |},
       Some (errors_Wrapf
               (Aggregate [field.Required "StringData"
                             "the pull secret does not contain any data"])
               "invalid PullSecret configuration" [])).
Proof.
  split.
  - exact (proj1 (AgentPullSecret_Generate_failure_state Fixture.agent_broken
                    (Fixture.agent_install "token") {| agent.PullSecret := "token" |}
                    token_asset eq_refl)
             Fixture.denied eq_refl).
  - exact (proj2 (AgentPullSecret_Generate_failure_state Fixture.agent_world
                    (Fixture.agent_install "") {| agent.PullSecret := "" |}
                    Fixture.agent_fresh eq_refl)
             "" eq_refl eq_refl).
Defined.

Lemma AgentPullSecret_Generate_without_config_witness :
  (Generate Fixture.agent_broken Fixture.agent_no_install Fixture.agent_fresh).1
  = Fixture.agent_fresh
  ∧ (Generate Fixture.agent_broken Fixture.agent_no_install Fixture.agent_fresh).2
    = Some (errors_New "missing configuration or manifest file")
  ∧ Files (Generate Fixture.agent_broken Fixture.agent_no_install Fixture.agent_fresh).1
    = [].
Proof.
  refine (let H := AgentPullSecret_Generate_without_config Fixture.agent_broken
                     Fixture.agent_no_install Fixture.agent_fresh eq_refl in
          conj (proj1 H) (conj (proj1 (proj2 H) eq_refl) (proj2 (proj2 H) eq_refl))).
Defined.

Lemma AgentPullSecret_Load_failure_keeps_asset_witness :
  Load Fixture.agent_world (Fixture.fetcher_failing Fixture.missing) token_asset
  = (token_asset, (false, None))
  ∧ Load Fixture.agent_world (Fixture.fetcher_failing Fixture.denied) token_asset
    = (token_asset,
       (false,
        Some (errors_Wrap (Foreign Fixture.denied)
                "failed to load cluster-manifests/pull-secret.yaml file")))
  ∧ Load Fixture.agent_broken (Fixture.fetcher_with "token") Fixture.agent_fresh
    = (Fixture.agent_fresh,
       (false,
        Some (errors_Wrapf (Foreign Fixture.denied) "failed to unmarshal %s"
                ["cluster-manifests/pull-secret.yaml"]))).
Proof.
  split; [| split].
  - exact (proj1 (AgentPullSecret_Load_failure_keeps_asset Fixture.agent_world
                    (Fixture.fetcher_failing Fixture.missing) token_asset)
             Fixture.missing eq_refl).
  - exact (proj1 (AgentPullSecret_Load_failure_keeps_asset Fixture.agent_world
                    (Fixture.fetcher_failing Fixture.denied) token_asset)
             Fixture.denied eq_refl).
  - exact (proj2 (AgentPullSecret_Load_failure_keeps_asset Fixture.agent_broken
                    (Fixture.fetcher_with "token") Fixture.agent_fresh)
             token_file Fixture.denied eq_refl eq_refl).
Defined.

Lemma AgentPullSecret_Load_outcome_witness :
  ((None : option error) = None
   ∧ finish token_asset = None
   ∧ ∃ file config,
       FetchByName (Fixture.fetcher_with "token") agentPullSecretFilename = inr file
       ∧ yaml_UnmarshalStrict Fixture.agent_world (asset.Data file) = inr config
       ∧ token_asset = {| File := Some file; Config := Some config |})
  ∧ (token_asset = token_asset
     ∧ ∃ fetchErr,
         FetchByName (Fixture.fetcher_failing Fixture.missing) agentPullSecretFilename
         = inl fetchErr
         ∧ os_IsNotExist Fixture.agent_world fetchErr = true).
Proof.
  split.
  - refine (proj1 (AgentPullSecret_Load_outcome Fixture.agent_world
                     (Fixture.fetcher_with "token") Fixture.agent_fresh token_asset
                     true None _) eq_refl).
    vm_compute. reflexivity.
  - refine (proj2 (AgentPullSecret_Load_outcome Fixture.agent_world
                     (Fixture.fetcher_failing Fixture.missing) token_asset token_asset
                     false None _) eq_refl eq_refl).
    reflexivity.
Defined.

Lemma AgentPullSecret_Load_invalid_replaces_asset_witness :
  Load Fixture.agent_world (Fixture.fetcher_with "") token_asset
  = ({| File := Some empty_file; Config := Some (Fixture.agent_secret "") |},
     (false,
      Some (errors_Wrapf
              (Aggregate (validateSecretIsNotEmpty (Fixture.agent_secret "")))
              "invalid PullSecret configuration" [])))
  ∧ Files (Load Fixture.agent_world (Fixture.fetcher_with "") token_asset).1
    = [empty_file].
Proof.
  refine (AgentPullSecret_Load_invalid_replaces_asset Fixture.agent_world
            (Fixture.fetcher_with "") token_asset empty_file
            (Fixture.agent_secret "") eq_refl eq_refl _).
  vm_compute. discriminate.
Defined.

Lemma AgentPullSecret_Generate_then_Load_witness :
  Load Fixture.agent_world (Fixture.fetcher_with "token") Fixture.agent_fresh
  = (token_asset, (true, None)).
Proof.
  refine (AgentPullSecret_Generate_then_Load Fixture.agent_world
            (Fixture.fetcher_with "token") (Fixture.agent_install "token")
            {| agent.PullSecret := "token" |} Fixture.agent_fresh token_asset
            Fixture.agent_fresh eq_refl _ _ _).
  - vm_compute. reflexivity.
  - intros file Hfile. injection Hfile as <-. reflexivity.
  - intros file secret Hfile Hsecret.
    injection Hfile as <-. injection Hsecret as <-. reflexivity.
Defined.
End AgentPullSecretInstances.

(** ** The node-zero client *)

(** X23: [NewNodeZeroClient] never hands back a client or an error and
    never reaches the assisted service: whatever the node-zero address and
    whatever the service would answer, it panics on the assignment through
    the URL pointer of the zero-valued [client.Config], which is nil,
    before any request is issued. *)
Theorem NewNodeZeroClient_panics (w : nodezero.World) :
  nodezero.NewNodeZeroClient w = ([], nodezero.Panics nodezero.nil_dereference)
  ∧ ∀ result, (nodezero.NewNodeZeroClient w).2 ≠ nodezero.Returns result.
Proof. split; [reflexivity |]. intros result. discriminate. Qed.
